(** * The client-references pass of babel-preset-expo

    A shallow embedding of [reactClientReferencesPlugin], the Babel plugin
    that turns modules marked ["use client"] or ["use server"] into the
    stubs of a React Server Components build, in its two artifacts:

    - [Src]: packages/babel-preset-expo/src/client-module-proxy-plugin.ts
    - [Build]: the compiled JavaScript file that ships next to it.

    The file has three layers: the Babel syntax tree the plugin reads and
    builds, the [Program] visitor of either artifact as a computation over
    the node and the file state it mutates, and a small evaluator for the
    JavaScript statements the visitor generates. *)

From Stdlib Require Import ZArith.
From stdpp Require Import base option list strings gmap fin_maps pretty.

Local Open Scope string_scope.
Local Open Scope list_scope.
Set Warnings "-register-all".

(** ** Syntax tree

    The node types of [@babel/types] that the plugin tests, reads or builds,
    plus the declarations an exported statement can wrap.  Constructors
    carry the node type's name and its fields in builder order. *)

Inductive Expression : Type :=
| Identifier (name : string)
| StringLiteral (value : string)
| NumericLiteral (value : Z)
| NullLiteral
| ObjectPattern (properties : list Property)
| ArrayPattern (elements : list Expression)
| MemberExpression (object property : Expression) (computed : bool)
| CallExpression (callee : Expression) (arguments : list Expression)
| AssignmentExpression (operator : string) (left right : Expression)
| BinaryExpression (operator : string) (left right : Expression)
| UnaryExpression (operator : string) (argument : Expression)
| ArrowFunctionExpression (params : list Expression) (body : Statement)
with Property : Type :=
| ObjectProperty (key value : Expression)
with Statement : Type :=
| ExpressionStatement (expression : Expression)
| BlockStatement (body : list Statement)
| IfStatement (test : Expression) (consequent : Statement)
    (alternate : option Statement)
| ForInStatement (left : Declaration) (right : Expression) (body : Statement)
| ReturnStatement (argument : option Expression)
| DeclarationStatement (declaration : Declaration)
| ExportNamedDeclaration (declaration : option Declaration)
    (specifiers : list Specifier)
| ExportDefaultDeclaration (declaration : option DefaultExportee)
| ExportAllDeclaration (source : string)
with Declaration : Type :=
| VariableDeclaration (kind : string) (declarations : list Declarator)
| FunctionDeclaration (id : Expression) (params : list Expression)
    (body : Statement)
| ClassDeclaration (id : Expression) (superClass : option Expression)
| TSModuleDeclaration (id : Expression) (body : list Statement)
with Declarator : Type :=
| VariableDeclarator (id : Expression) (init : option Expression)
with Specifier : Type :=
| ExportSpecifier (local exported : Expression)
| ExportNamespaceSpecifier (exported : Expression)
with DefaultExportee : Type :=
| DefaultFunctionDeclaration (id : option Expression) (params : list Expression)
    (body : Statement)
| DefaultClassDeclaration (id : option Expression)
    (superClass : option Expression)
| DefaultExpression (expression : Expression).

(** A directive ["use client";] is a [Directive] node whose [value] is a
    [DirectiveLiteral]; the plugin reads [directive.value.value]. *)
Record DirectiveLiteral : Type := directiveLiteral { literal_value : string }.
Record Directive : Type := directive { directive_value : DirectiveLiteral }.

(** The [Program] node behind [path.node]. *)
Record ProgramNode : Type := program {
  body : list Statement;
  directives : list Directive
}.

(** The value of a JavaScript property read that yields a string or
    [undefined]: [None] is [undefined]. *)
Definition NameValue : Type := option string.

(** [node.name]: only an [Identifier] has the property. *)
Definition name (node : Expression) : NameValue :=
  match node with
  | Identifier n => Some n
  | _ => None
  end.

(** [decl.id] and [spec.exported]. *)
Definition declarator_id (decl : Declarator) : Expression :=
  match decl with VariableDeclarator i _ => i end.

Definition specifier_exported (spec : Specifier) : Expression :=
  match spec with
  | ExportSpecifier _ e => e
  | ExportNamespaceSpecifier e => e
  end.

(** ** The export collector

    The two visitor methods passed to [path.traverse].  Each returns the
    names it pushes onto [exports], in push order. *)

Definition visit_ExportNamedDeclaration
    (declaration : option Declaration) (specifiers : list Specifier)
  : list NameValue :=
  match declaration with
  | Some (VariableDeclaration _ declarations) =>
      map (fun decl => name (declarator_id decl)) declarations
  | Some (FunctionDeclaration i _ _)
  | Some (ClassDeclaration i _)
  | Some (TSModuleDeclaration i _) => [name i]
  | None => map (fun spec => name (specifier_exported spec)) specifiers
  end.

Definition visit_ExportDefaultDeclaration
    (declaration : option DefaultExportee) : list NameValue :=
  match declaration with
  | Some _ => [Some "default"]
  | None => []
  end.

(** [path.traverse(visitor)]: every descendant is visited depth first, a
    node before its children and the children in field order, so the pushes
    come out in source order. *)
Fixpoint traverseExpression (e : Expression) : list NameValue :=
  match e with
  | Identifier _ | StringLiteral _ | NumericLiteral _ | NullLiteral => []
  | ObjectPattern properties => flat_map traverseProperty properties
  | ArrayPattern elements => flat_map traverseExpression elements
  | MemberExpression object property _ =>
      traverseExpression object ++ traverseExpression property
  | CallExpression callee arguments =>
      traverseExpression callee ++ flat_map traverseExpression arguments
  | AssignmentExpression _ lhs rhs
  | BinaryExpression _ lhs rhs =>
      traverseExpression lhs ++ traverseExpression rhs
  | UnaryExpression _ argument => traverseExpression argument
  | ArrowFunctionExpression params body =>
      flat_map traverseExpression params ++ traverseStatement body
  end
with traverseProperty (p : Property) : list NameValue :=
  match p with
  | ObjectProperty key value => traverseExpression key ++ traverseExpression value
  end
with traverseStatement (s : Statement) : list NameValue :=
  match s with
  | ExpressionStatement expression => traverseExpression expression
  | BlockStatement body => flat_map traverseStatement body
  | IfStatement test consequent alternate =>
      traverseExpression test ++ traverseStatement consequent
        ++ match alternate with
           | Some a => traverseStatement a
           | None => []
           end
  | ForInStatement lhs rhs body =>
      traverseDeclaration lhs ++ traverseExpression rhs
        ++ traverseStatement body
  | ReturnStatement argument =>
      match argument with
      | Some a => traverseExpression a
      | None => []
      end
  | DeclarationStatement declaration => traverseDeclaration declaration
  | ExportNamedDeclaration declaration specifiers =>
      visit_ExportNamedDeclaration declaration specifiers
        ++ match declaration with
           | Some d => traverseDeclaration d
           | None => []
           end
        ++ flat_map traverseSpecifier specifiers
  | ExportDefaultDeclaration declaration =>
      visit_ExportDefaultDeclaration declaration
        ++ match declaration with
           | Some d => traverseExportee d
           | None => []
           end
  | ExportAllDeclaration _ => []
  end
with traverseDeclaration (d : Declaration) : list NameValue :=
  match d with
  | VariableDeclaration _ declarations => flat_map traverseDeclarator declarations
  | FunctionDeclaration i params body =>
      traverseExpression i ++ flat_map traverseExpression params
        ++ traverseStatement body
  | ClassDeclaration i superClass =>
      traverseExpression i
        ++ match superClass with
           | Some c => traverseExpression c
           | None => []
           end
  | TSModuleDeclaration i body =>
      traverseExpression i ++ flat_map traverseStatement body
  end
with traverseDeclarator (d : Declarator) : list NameValue :=
  match d with
  | VariableDeclarator i init =>
      traverseExpression i
        ++ match init with
           | Some e => traverseExpression e
           | None => []
           end
  end
with traverseSpecifier (s : Specifier) : list NameValue :=
  match s with
  | ExportSpecifier local exported =>
      traverseExpression local ++ traverseExpression exported
  | ExportNamespaceSpecifier exported => traverseExpression exported
  end
with traverseExportee (d : DefaultExportee) : list NameValue :=
  match d with
  | DefaultFunctionDeclaration i params body =>
      match i with
      | Some e => traverseExpression e
      | None => []
      end ++ flat_map traverseExpression params ++ traverseStatement body
  | DefaultClassDeclaration i superClass =>
      match i with
      | Some e => traverseExpression e
      | None => []
      end ++ match superClass with
             | Some c => traverseExpression c
             | None => []
             end
  | DefaultExpression expression => traverseExpression expression
  end.

(** The [exports] array after [path.traverse] on the program. *)
Definition collectExports (node : ProgramNode) : list NameValue :=
  flat_map traverseStatement (body node).

(** ** Node builders

    The builders of [api.types] the plugin calls.  Optional arguments the
    source leaves out are written out: [computed] of a member expression is
    [false], [init] of a declarator and [alternate] of an [if] are absent. *)
Module t.

Definition identifier (name : string) : Expression := Identifier name.
Definition stringLiteral (value : string) : Expression := StringLiteral value.
Definition nullLiteral : Expression := NullLiteral.
Definition memberExpression (object property : Expression) (computed : bool)
  : Expression := MemberExpression object property computed.
Definition callExpression (callee : Expression) (arguments : list Expression)
  : Expression := CallExpression callee arguments.
Definition assignmentExpression (operator : string) (lhs rhs : Expression)
  : Expression := AssignmentExpression operator lhs rhs.
Definition binaryExpression (operator : string) (lhs rhs : Expression)
  : Expression := BinaryExpression operator lhs rhs.
Definition unaryExpression (operator : string) (argument : Expression)
  : Expression := UnaryExpression operator argument.
Definition arrowFunctionExpression (params : list Expression) (body : Statement)
  : Expression := ArrowFunctionExpression params body.
Definition expressionStatement (expression : Expression) : Statement :=
  ExpressionStatement expression.
Definition blockStatement (body : list Statement) : Statement :=
  BlockStatement body.
Definition ifStatement (test : Expression) (consequent : Statement)
    (alternate : option Statement) : Statement :=
  IfStatement test consequent alternate.
Definition forInStatement (lhs : Declaration) (rhs : Expression)
    (body : Statement) : Statement :=
  ForInStatement lhs rhs body.
Definition variableDeclaration (kind : string) (declarations : list Declarator)
  : Declaration := VariableDeclaration kind declarations.
Definition variableDeclarator (id : Expression) : Declarator :=
  VariableDeclarator id None.

End t.

(** ** Generated statements *)

Definition reactServerAdapter : string := "react-server-dom-webpack/server".

(** [module.exports = require(adapter).createClientModuleProxy(outputKey)],
    the statement pushed on the ["use client"] path. *)
Definition clientProxyStatement (outputKey : string) : Statement :=
  t.expressionStatement
    (t.assignmentExpression "="
       (t.memberExpression (t.identifier "module") (t.identifier "exports") false)
       (t.callExpression
          (t.memberExpression
             (t.callExpression (t.identifier "require")
                [t.stringLiteral reactServerAdapter])
             (t.identifier "createClientModuleProxy") false)
          [t.stringLiteral outputKey])).

Definition mmexp : Expression :=
  t.memberExpression
    (t.callExpression (t.identifier "require") [t.stringLiteral reactServerAdapter])
    (t.identifier "registerServerReference") false.

Definition loopBody (outputKey : string) : Statement :=
  t.blockStatement [
    t.ifStatement
      (t.binaryExpression "==="
         (t.unaryExpression "typeof"
            (t.memberExpression
               (t.memberExpression (t.identifier "module") (t.identifier "exports") false)
               (t.identifier "key") true))
         (t.stringLiteral "function"))
      (t.expressionStatement
         (t.callExpression mmexp [
            t.memberExpression
              (t.memberExpression (t.identifier "module") (t.identifier "exports") false)
              (t.identifier "key") true;
            t.stringLiteral outputKey;
            t.identifier "key"
          ]))
      None
  ].

Definition forInStatement (outputKey : string) : Statement :=
  t.forInStatement
    (t.variableDeclaration "const" [t.variableDeclarator (t.identifier "key")])
    (t.memberExpression (t.identifier "module") (t.identifier "exports") false)
    (loopBody outputKey).

(** The self-invoking arrow function pushed on the ["use server"] path. *)
Definition serverRegistrationStatement (outputKey : string) : Statement :=
  t.expressionStatement
    (t.callExpression
       (t.arrowFunctionExpression []
          (t.blockStatement [
             t.ifStatement
               (t.binaryExpression "==="
                  (t.unaryExpression "typeof"
                     (t.memberExpression (t.identifier "module")
                        (t.identifier "exports") false))
                  (t.stringLiteral "function"))
               (t.blockStatement [
                  t.expressionStatement
                    (t.callExpression mmexp [
                       t.memberExpression (t.identifier "module")
                         (t.identifier "exports") false;
                       t.stringLiteral outputKey;
                       t.nullLiteral
                     ])
                ])
               (Some (t.blockStatement [forInStatement outputKey]))
           ]))
       []).

(** ** The state the visitor works on *)

(** The record stored under [state.file.metadata['clientReferences']]. *)
Record ClientReferences : Type := clientReferences {
  entryPoint : string;
  exports : list NameValue
}.

(** A value of the [metadata] object: this plugin's record, or whatever
    another plugin stored. *)
Inductive MetaValue : Type :=
| MetaClientReferences (record : ClientReferences)
| MetaOther (data : string).

(** [state.file]: [opts.filename] (absent is [None]) and [metadata]. *)
Record BabelFile : Type := babelFile {
  filename : NameValue;
  metadata : gmap string MetaValue
}.

(** One call of [debug(label, filePath, exports)]. *)
Record DebugCall : Type := debugCall {
  debug_label : string;
  debug_filePath : string;
  debug_exports : list NameValue
}.

(** Everything the visitor can read or change: the program node behind
    [path], the file behind [state], and the calls made to [debug]. *)
Record World : Type := world {
  node : ProgramNode;
  file : BabelFile;
  debugLog : list DebugCall
}.

(** What the visitor throws: the error of [path.buildCodeFrameError], which
    is built from the node it points at, or a plain [Error]. *)
Inductive Thrown : Type :=
| CodeFrameError (at_node : ProgramNode) (message : string)
| Error (message : string).

Inductive Completion (A : Type) : Type :=
| Normal (result : A)
| Throw (error : Thrown).
Arguments Normal {A} result.
Arguments Throw {A} error.

(** A visitor body: it runs on a world and completes normally or throws,
    leaving the world as it was at that point. *)
Definition Pass (A : Type) : Type := World -> Completion A * World.

#[export] Instance Pass_ret : MRet Pass := fun A a w => (Normal a, w).

#[export] Instance Pass_bind : MBind Pass := fun A B f m w =>
  match m w with
  | (Normal a, w') => f a w'
  | (Throw e, w') => (Throw e, w')
  end.

Definition throw {A : Type} (e : Thrown) : Pass A := fun w => (Throw e, w).

Definition getNode : Pass ProgramNode := fun w => (Normal (node w), w).

Definition getFilename : Pass NameValue := fun w => (Normal (filename (file w)), w).

(** [path.node.body = b] and [path.node.directives = d]. *)
Definition setBody (b : list Statement) : Pass unit := fun w =>
  (Normal tt,
   {| node := {| body := b; directives := directives (node w) |};
      file := file w; debugLog := debugLog w |}).

Definition setDirectives (d : list Directive) : Pass unit := fun w =>
  (Normal tt,
   {| node := {| body := body (node w); directives := d |};
      file := file w; debugLog := debugLog w |}).

(** [path.pushContainer('body', s)]: the statement goes to the end of
    [path.node.body]. *)
Definition pushContainer_body (s : Statement) : Pass unit := fun w =>
  (Normal tt,
   {| node := {| body := body (node w) ++ [s]; directives := directives (node w) |};
      file := file w; debugLog := debugLog w |}).

(** [state.file.metadata[key] = v]. *)
Definition setMetadata (key : string) (v : MetaValue) : Pass unit := fun w =>
  (Normal tt,
   {| node := node w;
      file := {| filename := filename (file w);
                 metadata := <[key := v]> (metadata (file w)) |};
      debugLog := debugLog w |}).

Definition debug (label filePath : string) (exports : list NameValue)
  : Pass unit := fun w =>
  (Normal tt,
   {| node := node w; file := file w;
      debugLog := debugLog w ++ [debugCall label filePath exports] |}).

(** JavaScript truthiness of a string-or-undefined value: [undefined] and
    the empty string are falsy. *)
Definition truthy (v : NameValue) : bool :=
  match v with
  | None => false
  | Some s => negb (String.eqb s EmptyString)
  end.

(** [directives.some(directive => directive.value.value === text)]. *)
Definition hasDirective (text : string) (ds : list Directive) : bool :=
  existsb
    (fun directive => String.eqb (literal_value (directive_value directive)) text)
    ds.

Definition conflictMessage : string :=
  "It's not possible to have both `use client` and `use server` directives in the same file.".

Definition filenameMessage : string :=
  "[Babel] Expected a filename to be set in the state".

(** What a plugin factory returns: its name and its [Program] visitor. *)
Record PluginObj : Type := pluginObj {
  plugin_name : string;
  visitor_Program : Pass unit
}.

(** ** The TypeScript source *)
Module Src.
Section Plugin.

(** [url.pathToFileURL(p).href], Node's conversion of a path to a file URL. *)
Variable pathToFileURL : string -> string.

(** [api.caller(getIsReactServer)]: whether the build targets the React
    server; [getIsReactServer] is imported from [./common]. *)
Variable isServer : bool.

Definition Program : Pass unit :=
  n ← getNode;
  let isUseClient := hasDirective "use client" (directives n) in
  let isUseServer := hasDirective "use server" (directives n) in
  if isUseClient && isUseServer then
    throw (CodeFrameError n conflictMessage)
  else
    f ← getFilename;
    if negb (truthy f) then
      throw (Error filenameMessage)
    else
      let filePath := default EmptyString f in
      let outputKey := pathToFileURL filePath in
      if negb isUseClient && negb isUseServer then
        mret tt
      else
        let exports := collectExports n in
        debug "Client references" filePath exports;;
        setMetadata "clientReferences"
          (MetaClientReferences
             {| entryPoint := outputKey; exports := exports |});;
        if negb isServer then
          mret tt
        else if isUseClient then
          setBody [];;
          setDirectives [];;
          pushContainer_body (clientProxyStatement outputKey)
        else
          pushContainer_body (serverRegistrationStatement outputKey).

Definition reactClientReferencesPlugin : PluginObj :=
  {| plugin_name := "expo-client-references"; visitor_Program := Program |}.

End Plugin.
End Src.

(** ** The compiled JavaScript artifact *)
Module Build.
Section Plugin.

Variable pathToFileURL : string -> string.

Definition Program : Pass unit :=
  n ← getNode;
  let isUseClient := hasDirective "use client" (directives n) in
  let isUseServer := hasDirective "use server" (directives n) in
  if isUseClient && isUseServer then
    throw (CodeFrameError n conflictMessage)
  else
    f ← getFilename;
    if negb (truthy f) then
      throw (Error filenameMessage)
    else
      let filePath := default EmptyString f in
      let outputKey := pathToFileURL filePath in
      if negb isUseClient && negb isUseServer then
        mret tt
      else
        (if isUseClient then
           let exports := collectExports n in
           debug "Client references" filePath exports;;
           setMetadata "clientReferences"
             (MetaClientReferences
                {| entryPoint := outputKey; exports := exports |})
         else
           mret tt);;
        if isUseClient then
          setBody [];;
          setDirectives [];;
          pushContainer_body (clientProxyStatement outputKey)
        else
          pushContainer_body (serverRegistrationStatement outputKey).

Definition reactClientReferencesPlugin : PluginObj :=
  {| plugin_name := "expo-client-references"; visitor_Program := Program |}.

End Plugin.
End Build.

(** ** Running the generated statements

    An evaluator for the JavaScript the visitor generates, run where the
    bundler puts it: at the top level of a CommonJS module, after the
    module's own code has filled [module.exports]. *)

(** The values a module can export.  An object is the list of its
    enumerable properties in enumeration order; a function is named by a
    tag and carries no enumerable properties. *)
Inductive Value : Type :=
| VUndefined
| VNull
| VBoolean (b : bool)
| VNumber (n : Z)
| VString (s : string)
| VFunction (tag : string)
| VObject (props : list (string * Value)).

(** What the module wrapper and the adapter module supply. *)
Inductive Host : Type :=
| ModuleObject
| Require
| ServerAdapter
| RegisterServerReference
| CreateClientModuleProxy
| ClientModuleProxy (id : string).

Inductive RValue : Type :=
| Data (v : Value)
| HostValue (h : Host).

(** A call received by one of the adapter's functions. *)
Definition HostCall : Type := (Host * list RValue)%type.

Record Runtime : Type := runtime {
  moduleExports : RValue;
  scope : list (string * RValue);
  hostCalls : list HostCall
}.

Inductive Failure : Type :=
| TypeError
| ReferenceError
| Unsupported
| OutOfFuel.

Inductive Result (A : Type) : Type :=
| Ok (a : A)
| Fail (why : Failure).
Arguments Ok {A} a.
Arguments Fail {A} why.

#[export] Instance Result_ret : MRet Result := fun A a => Ok a.

#[export] Instance Result_bind : MBind Result := fun A B f m =>
  match m with
  | Ok a => f a
  | Fail why => Fail why
  end.

(** How a statement completes. *)
Inductive Flow : Type :=
| Next
| Return (v : RValue).

Fixpoint assoc {A : Type} (k : string) (l : list (string * A)) : option A :=
  match l with
  | [] => None
  | (k', v) :: l' => if String.eqb k k' then Some v else assoc k l'
  end.

Definition typeofValue (v : Value) : string :=
  match v with
  | VUndefined => "undefined"
  | VNull => "object"
  | VBoolean _ => "boolean"
  | VNumber _ => "number"
  | VString _ => "string"
  | VFunction _ => "function"
  | VObject _ => "object"
  end.

Definition typeofRValue (v : RValue) : Result string :=
  match v with
  | Data d => Ok (typeofValue d)
  | HostValue (Require | RegisterServerReference | CreateClientModuleProxy) =>
      Ok "function"
  | HostValue (ModuleObject | ServerAdapter) => Ok "object"
  | HostValue (ClientModuleProxy _) => Fail Unsupported
  end.

(** The enumerable properties [for ... in] walks: an object's own list, the
    indices of a string, nothing for the other values. *)
Definition enumerableProps (v : Value) : list (string * Value) :=
  match v with
  | VObject props => props
  | VString s =>
      imap (fun i c => (pretty i, VString (String c EmptyString)))
        (String.list_ascii_of_string s)
  | _ => []
  end.

Definition forInKeys (v : RValue) : Result (list string) :=
  match v with
  | Data d => Ok (map fst (enumerableProps d))
  | HostValue _ => Fail Unsupported
  end.

(** [o[k]]: reading from [undefined] or [null] throws; other reads are
    modelled for enumerable properties and for the host properties the
    generated code uses. *)
Definition getProp (o : RValue) (k : string) (rt : Runtime) : Result RValue :=
  match o with
  | Data VUndefined | Data VNull => Fail TypeError
  | Data d =>
      match assoc k (enumerableProps d) with
      | Some v => Ok (Data v)
      | None => Fail Unsupported
      end
  | HostValue ModuleObject =>
      if String.eqb k "exports" then Ok (moduleExports rt) else Fail Unsupported
  | HostValue ServerAdapter =>
      if String.eqb k "registerServerReference" then
        Ok (HostValue RegisterServerReference)
      else if String.eqb k "createClientModuleProxy" then
        Ok (HostValue CreateClientModuleProxy)
      else Fail Unsupported
  | HostValue _ => Fail Unsupported
  end.

(** [o[k] = v]: only [module.exports] is assignable in the model. *)
Definition setProp (o : RValue) (k : string) (v : RValue) (rt : Runtime)
  : Result Runtime :=
  match o with
  | Data VUndefined | Data VNull => Fail TypeError
  | HostValue ModuleObject =>
      if String.eqb k "exports" then
        Ok {| moduleExports := v; scope := scope rt; hostCalls := hostCalls rt |}
      else Fail Unsupported
  | _ => Fail Unsupported
  end.

(** An identifier: a local binding, else the module wrapper's [module] and
    [require]. *)
Definition lookupVar (x : string) (rt : Runtime) : Result RValue :=
  match assoc x (scope rt) with
  | Some v => Ok v
  | None =>
      if String.eqb x "module" then Ok (HostValue ModuleObject)
      else if String.eqb x "require" then Ok (HostValue Require)
      else Fail ReferenceError
  end.

(** [typeof x] on a name that is bound nowhere gives ["undefined"] instead
    of throwing. *)
Definition unresolvable (e : Expression) (rt : Runtime) : bool :=
  match e with
  | Identifier x =>
      match lookupVar x rt with
      | Fail ReferenceError => true
      | _ => false
      end
  | _ => false
  end.

Definition toPropertyKey (v : RValue) : Result string :=
  match v with
  | Data (VString s) => Ok s
  | _ => Fail Unsupported
  end.

Definition toBoolean (v : RValue) : bool :=
  match v with
  | Data VUndefined | Data VNull => false
  | Data (VBoolean b) => b
  | Data (VNumber n) => negb (Z.eqb n 0)
  | Data (VString s) => negb (String.eqb s EmptyString)
  | Data (VFunction _) | Data (VObject _) => true
  | HostValue _ => true
  end.

(** [a === b] on primitives; object identity is not modelled. *)
Definition strictEquals (a b : RValue) : Result bool :=
  match a, b with
  | Data VUndefined, Data VUndefined | Data VNull, Data VNull => Ok true
  | Data (VBoolean x), Data (VBoolean y) => Ok (Bool.eqb x y)
  | Data (VNumber x), Data (VNumber y) => Ok (Z.eqb x y)
  | Data (VString x), Data (VString y) => Ok (String.eqb x y)
  | Data (VFunction _ | VObject _), Data (VFunction _ | VObject _) =>
      Fail Unsupported
  | Data _, Data _ => Ok false
  | _, _ => Fail Unsupported
  end.

(** Calling a value.  [require] knows the adapter module only; the adapter's
    two functions record the call, and what [registerServerReference]
    returns is taken as [undefined] (the generated code drops it). *)
Definition callValue (f : RValue) (args : list RValue) (rt : Runtime)
  : Result (RValue * Runtime) :=
  let record h :=
    {| moduleExports := moduleExports rt; scope := scope rt;
       hostCalls := hostCalls rt ++ [(h, args)] |} in
  match f with
  | HostValue Require =>
      match args with
      | [Data (VString s)] =>
          if String.eqb s reactServerAdapter then Ok (HostValue ServerAdapter, rt)
          else Fail Unsupported
      | _ => Fail Unsupported
      end
  | HostValue RegisterServerReference =>
      Ok (Data VUndefined, record RegisterServerReference)
  | HostValue CreateClientModuleProxy =>
      match args with
      | [Data (VString id)] =>
          Ok (HostValue (ClientModuleProxy id), record CreateClientModuleProxy)
      | _ => Fail Unsupported
      end
  | Data (VFunction _) => Fail Unsupported
  | _ => Fail TypeError
  end.

Definition withScope (sc : list (string * RValue)) (rt : Runtime) : Runtime :=
  {| moduleExports := moduleExports rt; scope := sc; hostCalls := hostCalls rt |}.

(** Argument lists, statement lists and the iterations of [for ... in],
    over the evaluator [run] of one element. *)
Fixpoint evalArguments (run : Expression -> Runtime -> Result (RValue * Runtime))
    (es : list Expression) (rt : Runtime) : Result (list RValue * Runtime) :=
  match es with
  | [] => Ok ([], rt)
  | e :: es' =>
      '(v, rt1) ← run e rt;
      '(vs, rt2) ← evalArguments run es' rt1;
      mret (v :: vs, rt2)
  end.

Fixpoint execBlock (run : Statement -> Runtime -> Result (Flow * Runtime))
    (ss : list Statement) (rt : Runtime) : Result (Flow * Runtime) :=
  match ss with
  | [] => Ok (Next, rt)
  | s :: ss' =>
      '(flow, rt1) ← run s rt;
      match flow with
      | Next => execBlock run ss' rt1
      | Return v => Ok (Return v, rt1)
      end
  end.

(** Each iteration binds the loop variable to the key for the body alone. *)
Fixpoint forInLoop (run : Runtime -> Result (Flow * Runtime)) (x : string)
    (ks : list string) (rt : Runtime) : Result (Flow * Runtime) :=
  match ks with
  | [] => Ok (Next, rt)
  | k :: ks' =>
      '(flow, rt1) ← run (withScope ((x, Data (VString k)) :: scope rt) rt);
      match flow with
      | Next => forInLoop run x ks' (withScope (scope rt) rt1)
      | Return v => Ok (Return v, withScope (scope rt) rt1)
      end
  end.

(** Expressions and statements, with [fuel] bounding the nesting depth (a
    loop spends none of it per iteration). *)
Fixpoint evalExpression (fuel : nat) (e : Expression) (rt : Runtime)
  {struct fuel} : Result (RValue * Runtime) :=
  match fuel with
  | O => Fail OutOfFuel
  | S fuel' =>
      let evalKey (property : Expression) (computed : bool) (rt : Runtime)
        : Result (string * Runtime) :=
        if computed then
          '(k, rt1) ← evalExpression fuel' property rt;
          key ← toPropertyKey k;
          mret (key, rt1)
        else
          match property with
          | Identifier x => Ok (x, rt)
          | _ => Fail Unsupported
          end in
      match e with
      | Identifier x => v ← lookupVar x rt; mret (v, rt)
      | StringLiteral s => Ok (Data (VString s), rt)
      | NumericLiteral n => Ok (Data (VNumber n), rt)
      | NullLiteral => Ok (Data VNull, rt)
      | MemberExpression object property computed =>
          '(o, rt1) ← evalExpression fuel' object rt;
          '(k, rt2) ← evalKey property computed rt1;
          v ← getProp o k rt2;
          mret (v, rt2)
      | CallExpression (ArrowFunctionExpression params body) arguments =>
          '(_, rt1) ← evalArguments (evalExpression fuel') arguments rt;
          match params with
          | [] =>
              '(flow, rt2) ← execStatement fuel' body rt1;
              mret (match flow with Return v => v | Next => Data VUndefined end,
                    withScope (scope rt1) rt2)
          | _ => Fail Unsupported
          end
      | CallExpression callee arguments =>
          '(f, rt1) ← evalExpression fuel' callee rt;
          '(vs, rt2) ← evalArguments (evalExpression fuel') arguments rt1;
          callValue f vs rt2
      | AssignmentExpression operator (MemberExpression object property computed) rhs =>
          if String.eqb operator "=" then
            '(o, rt1) ← evalExpression fuel' object rt;
            '(k, rt2) ← evalKey property computed rt1;
            '(v, rt3) ← evalExpression fuel' rhs rt2;
            rt4 ← setProp o k v rt3;
            mret (v, rt4)
          else Fail Unsupported
      | BinaryExpression operator lhs rhs =>
          if String.eqb operator "===" then
            '(a, rt1) ← evalExpression fuel' lhs rt;
            '(b, rt2) ← evalExpression fuel' rhs rt1;
            r ← strictEquals a b;
            mret (Data (VBoolean r), rt2)
          else Fail Unsupported
      | UnaryExpression operator argument =>
          if String.eqb operator "typeof" then
            if unresolvable argument rt then
              Ok (Data (VString "undefined"), rt)
            else
              '(a, rt1) ← evalExpression fuel' argument rt;
              ty ← typeofRValue a;
              mret (Data (VString ty), rt1)
          else Fail Unsupported
      | _ => Fail Unsupported
      end
  end
with execStatement (fuel : nat) (s : Statement) (rt : Runtime)
  {struct fuel} : Result (Flow * Runtime) :=
  match fuel with
  | O => Fail OutOfFuel
  | S fuel' =>
      match s with
      | ExpressionStatement expression =>
          '(_, rt1) ← evalExpression fuel' expression rt;
          mret (Next, rt1)
      | BlockStatement body => execBlock (execStatement fuel') body rt
      | IfStatement test consequent alternate =>
          '(c, rt1) ← evalExpression fuel' test rt;
          if toBoolean c then execStatement fuel' consequent rt1
          else
            match alternate with
            | Some a => execStatement fuel' a rt1
            | None => Ok (Next, rt1)
            end
      | ForInStatement
          (VariableDeclaration _ [VariableDeclarator (Identifier x) None])
          rhs body =>
          '(o, rt1) ← evalExpression fuel' rhs rt;
          keys ← forInKeys o;
          forInLoop (execStatement fuel' body) x keys rt1
      | ReturnStatement argument =>
          match argument with
          | Some a =>
              '(v, rt1) ← evalExpression fuel' a rt;
              mret (Return v, rt1)
          | None => Ok (Return (Data VUndefined), rt)
          end
      | _ => Fail Unsupported
      end
  end.

(** ** Vocabulary of the statements below *)

Definition isUseClient (w : World) : bool :=
  hasDirective "use client" (directives (node w)).

Definition isUseServer (w : World) : bool :=
  hasDirective "use server" (directives (node w)).

(** The module has a file location: [state.file.opts.filename] is truthy. *)
Definition hasFilename (w : World) : bool := truthy (filename (file w)).

Definition filePathOf (w : World) : string :=
  default EmptyString (filename (file w)).

(** The manifest record the visitor builds for the module in [w]. *)
Definition manifestOf (pathToFileURL : string -> string) (w : World)
  : MetaValue :=
  MetaClientReferences
    {| entryPoint := pathToFileURL (filePathOf w);
       exports := collectExports (node w) |}.

(** [w] after the [debug] call and the metadata assignment. *)
Definition recorded (pathToFileURL : string -> string) (w : World) : World :=
  {| node := node w;
     file := {| filename := filename (file w);
                metadata := <["clientReferences" := manifestOf pathToFileURL w]>
                              (metadata (file w)) |};
     debugLog := debugLog w
       ++ [debugCall "Client references" (filePathOf w) (collectExports (node w))] |}.

Definition withNode (n : ProgramNode) (w : World) : World :=
  {| node := n; file := file w; debugLog := debugLog w |}.

(** The program node after either rewrite. *)
Definition clientRewritten (pathToFileURL : string -> string) (w : World)
  : ProgramNode :=
  {| body := [clientProxyStatement (pathToFileURL (filePathOf w))];
     directives := [] |}.

Definition serverRewritten (pathToFileURL : string -> string) (w : World)
  : ProgramNode :=
  {| body := body (node w)
       ++ [serverRegistrationStatement (pathToFileURL (filePathOf w))];
     directives := directives (node w) |}.

(** [registerServerReference(value, id, name)] as the adapter receives it. *)
Definition registerCall (value : Value) (id : string) (name : Value) : HostCall :=
  (RegisterServerReference, [Data value; Data (VString id); Data name]).

(** [typeof v === 'function']. *)
Definition isFunction (v : Value) : bool :=
  String.eqb (typeofValue v) "function".

(** What one iteration of the generated loop hands to the adapter for the
    key [k]: [module.exports[k]] with its key, when that value is a
    function. *)
Definition registrationsAt (id : string) (exported : Value) (k : string)
  : list HostCall :=
  match assoc k (enumerableProps exported) with
  | Some v => if isFunction v then [registerCall v id (VString k)] else []
  | None => []
  end.

(** The runtime at the module's top level: no local binding in scope. *)
Definition topLevel (exported : RValue) (calls : list HostCall) : Runtime :=
  {| moduleExports := exported; scope := []; hostCalls := calls |}.

(** Fuel that covers the nesting depth of the generated statements. *)
Definition enoughFuel : nat := 13.

(** ** Sample modules *)
Module Sample.

(** A stand-in for [url.pathToFileURL(p).href] on plain absolute POSIX
    paths, where Node only prefixes the scheme. *)
Definition file_url (p : string) : string := "file://" ++ p.

Definition useClient : Directive := directive (directiveLiteral "use client").
Definition useServer : Directive := directive (directiveLiteral "use server").
Definition useStrict : Directive := directive (directiveLiteral "use strict").

(** [export const foo = 1;] *)
Definition exportFoo : Statement :=
  ExportNamedDeclaration
    (Some (VariableDeclaration "const"
             [VariableDeclarator (Identifier "foo") (Some (NumericLiteral 1))]))
    [].

(** [export default function () {}] *)
Definition exportDefault : Statement :=
  ExportDefaultDeclaration
    (Some (DefaultFunctionDeclaration None [] (BlockStatement []))).

(** [export function doThing() {}] *)
Definition exportDoThing : Statement :=
  ExportNamedDeclaration
    (Some (FunctionDeclaration (Identifier "doThing") [] (BlockStatement [])))
    [].

(** [export const { a, b } = obj;] *)
Definition exportDestructured : Statement :=
  ExportNamedDeclaration
    (Some (VariableDeclaration "const"
             [VariableDeclarator
                (ObjectPattern
                   [ObjectProperty (Identifier "a") (Identifier "a");
                    ObjectProperty (Identifier "b") (Identifier "b")])
                (Some (Identifier "obj"))]))
    [].

Definition moduleOf (ds : list Directive) (ss : list Statement)
    (path : NameValue) : World :=
  {| node := {| body := ss; directives := ds |};
     file := {| filename := path; metadata := ∅ |};
     debugLog := [] |}.

Definition clientModule : World :=
  moduleOf [useClient] [exportFoo; exportDefault] (Some "/app/button.js").

Definition serverModule : World :=
  moduleOf [useServer] [exportDoThing] (Some "/app/actions.js").

Definition plainModule : World :=
  moduleOf [useStrict] [exportFoo] (Some "/app/util.js").

Definition conflictModule : World :=
  moduleOf [useClient; useServer] [exportFoo] (Some "/app/both.js").

Definition unnamedPlainModule : World :=
  moduleOf [useStrict] [exportFoo] None.

Definition unnamedConflictModule : World :=
  moduleOf [useClient; useServer] [exportFoo] None.

Definition destructuringModule : World :=
  moduleOf [useClient] [exportDestructured] (Some "/app/hooks.js").

(** [module.exports] of a module with two functions and a constant. *)
Definition actionExports : Value :=
  VObject [("doThing", VFunction "doThing"); ("limit", VNumber 3);
           ("undo", VFunction "undo")].

End Sample.

(** ** Repeated runs and families of input *)

(** The world after [n] runs of a visitor, each on what the previous run
    left. *)
Definition runs (visitor : Pass unit) (n : nat) (w : World) : World :=
  Nat.iter n (fun w => snd (visitor w)) w.

(** [w] with another directive list. *)
Definition withDirectives (ds : list Directive) (w : World) : World :=
  withNode {| body := body (node w); directives := ds |} w.

(** Top-level statements whose exported names are plain identifiers, and
    statements that export no name of their own. *)
Inductive ExportForm : Type :=
| VariableForm (kind : string) (names : list string)
| FunctionForm (fname : string) (params : list string)
| ClassForm (cname : string)
| SpecifierForm (pairs : list (string * string))
| NamespaceForm (alias : string)
| DefaultForm (value : string)
| ReexportAllForm (source : string)
| CallForm (callee : string) (arguments : list string).

(** The statement the parser builds for each form:
    [export const a = undefined, b;], [export function f(p) {}],
    [export class C {}], [export { local as exported }],
    [export * as alias from '...'], [export default value;],
    [export * from 'source'] and [callee(arguments);]. *)
Definition statementOf (form : ExportForm) : Statement :=
  match form with
  | VariableForm kind names =>
      ExportNamedDeclaration
        (Some (VariableDeclaration kind
                 (map (fun x => VariableDeclarator (Identifier x) None) names)))
        []
  | FunctionForm fname params =>
      ExportNamedDeclaration
        (Some (FunctionDeclaration (Identifier fname) (map Identifier params)
                 (BlockStatement [])))
        []
  | ClassForm cname =>
      ExportNamedDeclaration (Some (ClassDeclaration (Identifier cname) None)) []
  | SpecifierForm pairs =>
      ExportNamedDeclaration None
        (map (fun p => ExportSpecifier (Identifier (fst p)) (Identifier (snd p)))
           pairs)
  | NamespaceForm alias =>
      ExportNamedDeclaration None [ExportNamespaceSpecifier (Identifier alias)]
  | DefaultForm value =>
      ExportDefaultDeclaration (Some (DefaultExpression (Identifier value)))
  | ReexportAllForm source => ExportAllDeclaration source
  | CallForm callee arguments =>
      ExpressionStatement
        (CallExpression (Identifier callee) (map Identifier arguments))
  end.

(** The names each form makes available to importers, as the manifest
    should list them. *)
Definition exportedNames (form : ExportForm) : list string :=
  match form with
  | VariableForm _ names => names
  | FunctionForm fname _ => [fname]
  | ClassForm cname => [cname]
  | SpecifierForm pairs => map snd pairs
  | NamespaceForm alias => [alias]
  | DefaultForm _ => ["default"]
  | ReexportAllForm _ => []
  | CallForm _ _ => []
  end.

Module Fixture.

(** A ["use client"] module whose file already carries another plugin's
    metadata and an earlier record of this plugin. *)
Definition annotatedModule : World :=
  {| node := {| body := [Sample.exportFoo];
                directives := [Sample.useStrict; Sample.useClient] |};
     file := {| filename := Some "/app/card.js";
                metadata :=
                  <["coverage" := MetaOther "instrumented"]>
                    (<["clientReferences" := MetaOther "stale"]> ∅) |};
     debugLog := [] |}.

(** One statement of every form. *)
Definition everyForm : list ExportForm :=
  [CallForm "setup" ["config"];
   VariableForm "const" ["a"; "b"];
   FunctionForm "load" ["id"];
   ClassForm "Store";
   SpecifierForm [("internal", "visible")];
   NamespaceForm "helpers";
   ReexportAllForm "./more";
   DefaultForm "Store"].

End Fixture.

(** Everything the registration wrapper hands to the adapter for a module
    whose [module.exports] is [exported]. *)
Definition registrationsOf (id : string) (exported : Value) : list HostCall :=
  if isFunction exported then [registerCall exported id VNull]
  else flat_map (registrationsAt id exported) (map fst (enumerableProps exported)).

(** Whether a directive is one of the two the visitor looks for. *)
Definition isBoundaryDirective (d : Directive) : bool :=
  String.eqb (literal_value (directive_value d)) "use client"
  || String.eqb (literal_value (directive_value d)) "use server".

(** * Properties *)

Arguments hasDirective : simpl never.
Arguments collectExports : simpl never.
Arguments clientProxyStatement : simpl never.
Arguments serverRegistrationStatement : simpl never.
Arguments enumerableProps : simpl never.

(** ** The visitor, case by case *)

Ltac unfold_pass :=
  unfold Src.Program, Build.Program, isUseClient, isUseServer, hasFilename in *;
  unfold mbind, mret, Pass_bind, Pass_ret, getNode, getFilename, throw,
    setBody, setDirectives, pushContainer_body, setMetadata, debug; simpl.

Ltac run_pass :=
  unfold_pass;
  repeat (match goal with
          | H : hasDirective _ _ = _ |- _ => rewrite H
          | H : truthy _ = _ |- _ => rewrite H
          end; simpl).

Section Cases.

Variable pathToFileURL : string -> string.
Variable w : World.

Lemma Src_conflict isServer :
  isUseClient w = true -> isUseServer w = true ->
  Src.Program pathToFileURL isServer w
  = (Throw (CodeFrameError (node w) conflictMessage), w).
Proof. intros Hc Hs. run_pass. reflexivity. Qed.

Lemma Build_conflict :
  isUseClient w = true -> isUseServer w = true ->
  Build.Program pathToFileURL w
  = (Throw (CodeFrameError (node w) conflictMessage), w).
Proof. intros Hc Hs. run_pass. reflexivity. Qed.

Lemma Src_no_filename isServer :
  isUseClient w && isUseServer w = false -> hasFilename w = false ->
  Src.Program pathToFileURL isServer w = (Throw (Error filenameMessage), w).
Proof. intros Hcs Hf. unfold_pass. rewrite Hcs, Hf. reflexivity. Qed.

Lemma Build_no_filename :
  isUseClient w && isUseServer w = false -> hasFilename w = false ->
  Build.Program pathToFileURL w = (Throw (Error filenameMessage), w).
Proof. intros Hcs Hf. unfold_pass. rewrite Hcs, Hf. reflexivity. Qed.

Lemma Src_neither isServer :
  isUseClient w = false -> isUseServer w = false -> hasFilename w = true ->
  Src.Program pathToFileURL isServer w = (Normal tt, w).
Proof. intros Hc Hs Hf. run_pass. reflexivity. Qed.

Lemma Build_neither :
  isUseClient w = false -> isUseServer w = false -> hasFilename w = true ->
  Build.Program pathToFileURL w = (Normal tt, w).
Proof. intros Hc Hs Hf. run_pass. reflexivity. Qed.

(** Outside a server build the source records the manifest and stops. *)
Lemma Src_client_build :
  isUseClient w && isUseServer w = false ->
  isUseClient w || isUseServer w = true -> hasFilename w = true ->
  Src.Program pathToFileURL false w = (Normal tt, recorded pathToFileURL w).
Proof.
  intros Hcs Hone Hf. unfold_pass. rewrite Hcs, Hf. simpl.
  rewrite <- negb_orb, Hone. reflexivity.
Qed.

Lemma Src_use_client :
  isUseClient w = true -> isUseServer w = false -> hasFilename w = true ->
  Src.Program pathToFileURL true w
  = (Normal tt,
     withNode (clientRewritten pathToFileURL w) (recorded pathToFileURL w)).
Proof. intros Hc Hs Hf. run_pass. reflexivity. Qed.

Lemma Src_use_server :
  isUseClient w = false -> isUseServer w = true -> hasFilename w = true ->
  Src.Program pathToFileURL true w
  = (Normal tt,
     withNode (serverRewritten pathToFileURL w) (recorded pathToFileURL w)).
Proof. intros Hc Hs Hf. run_pass. reflexivity. Qed.

Lemma Build_use_client :
  isUseClient w = true -> isUseServer w = false -> hasFilename w = true ->
  Build.Program pathToFileURL w
  = (Normal tt,
     withNode (clientRewritten pathToFileURL w) (recorded pathToFileURL w)).
Proof. intros Hc Hs Hf. run_pass. reflexivity. Qed.

(** The compiled file records nothing for a ["use server"] module. *)
Lemma Build_use_server :
  isUseClient w = false -> isUseServer w = true -> hasFilename w = true ->
  Build.Program pathToFileURL w
  = (Normal tt, withNode (serverRewritten pathToFileURL w) w).
Proof. intros Hc Hs Hf. run_pass. reflexivity. Qed.

End Cases.

(** ** The collector on top-level statements *)

Lemma collectExports_cons s ss ds :
  collectExports {| body := s :: ss; directives := ds |}
  = traverseStatement s ++ collectExports {| body := ss; directives := ds |}.
Proof. reflexivity. Qed.

Lemma collectExports_app ss1 ss2 ds :
  collectExports {| body := ss1 ++ ss2; directives := ds |}
  = collectExports {| body := ss1; directives := ds |}
    ++ collectExports {| body := ss2; directives := ds |}.
Proof. unfold collectExports. simpl. apply flat_map_app. Qed.

Lemma traverse_identifiers (xs : list string) :
  flat_map traverseExpression (map Identifier xs) = [].
Proof. induction xs; simpl; auto. Qed.

(** An exported declaration of plain identifiers yields their names. *)
Lemma export_of_identifiers kind (xs : list string) :
  traverseStatement
    (ExportNamedDeclaration
       (Some (VariableDeclaration kind
                (map (fun x => VariableDeclarator (Identifier x) None) xs)))
       [])
  = map Some xs.
Proof.
  cbn [traverseStatement visit_ExportNamedDeclaration traverseDeclaration flat_map].
  replace (flat_map traverseDeclarator
             (map (fun x => VariableDeclarator (Identifier x) None) xs))
    with (@nil NameValue) by (induction xs; simpl; auto).
  rewrite !app_nil_r, map_map. reflexivity.
Qed.

(** An exported function yields its name, whatever its parameters, when
    its body holds no export of its own. *)
Lemma export_of_function f (params : list string) fbody :
  traverseStatement fbody = [] ->
  traverseStatement
    (ExportNamedDeclaration
       (Some (FunctionDeclaration (Identifier f) (map Identifier params) fbody))
       [])
  = [Some f].
Proof.
  intros Hbody.
  cbn [traverseStatement visit_ExportNamedDeclaration traverseDeclaration
         traverseExpression flat_map name].
  rewrite traverse_identifiers, Hbody. reflexivity.
Qed.

(** A specifier list yields the exported-facing names, not the local ones. *)
Lemma export_of_specifiers (pairs : list (string * string)) :
  traverseStatement
    (ExportNamedDeclaration None
       (map (fun p => ExportSpecifier (Identifier (fst p)) (Identifier (snd p)))
          pairs))
  = map (fun p => Some (snd p)) pairs.
Proof.
  cbn [traverseStatement visit_ExportNamedDeclaration].
  replace (flat_map traverseSpecifier
             (map (fun p => ExportSpecifier (Identifier (fst p)) (Identifier (snd p)))
                pairs))
    with (@nil NameValue) by (induction pairs; simpl; auto).
  rewrite !app_nil_r, map_map. reflexivity.
Qed.

(** A default export of an expression without exports inside yields
    ["default"]. *)
Lemma export_of_default e :
  traverseExpression e = [] ->
  traverseStatement (ExportDefaultDeclaration (Some (DefaultExpression e)))
  = [Some "default"].
Proof. intros He. simpl. rewrite He. reflexivity. Qed.

(** ** Running the generated statements *)

Ltac step_eval :=
  repeat (unfold mbind, mret, Result_bind, Result_ret, lookupVar, withScope; simpl).

Lemma assoc_map_fst {A : Type} (k : string) (l : list (string * A)) :
  In k (map fst l) -> exists v, assoc k l = Some v.
Proof.
  induction l as [|[k' v'] l IH]; simpl; [tauto|].
  intros [->|Hin].
  - rewrite String.eqb_refl. eauto.
  - destruct (String.eqb k k'); eauto.
Qed.

Lemma assoc_NoDup {A : Type} (k : string) (v : A) (l : list (string * A)) :
  NoDup (map fst l) -> In (k, v) l -> assoc k l = Some v.
Proof.
  induction l as [|[k' v'] l IH]; simpl; [tauto|].
  intros Hnd [Heq|Hin].
  - injection Heq as -> ->. rewrite String.eqb_refl. reflexivity.
  - apply NoDup_cons in Hnd as [Hk' Hnd].
    destruct (String.eqb k k') eqn:Hkk.
    + apply String.eqb_eq in Hkk as ->. exfalso. apply Hk'.
      apply list_elem_of_In, in_map_iff. exists (k', v). auto.
    + auto.
Qed.

(** One iteration: the body reads [module.exports[key]] and registers it
    when it is a function. *)
Lemma exec_loopBody id exported k v calls n :
  assoc k (enumerableProps exported) = Some v ->
  execStatement (S (S (S (S (S (S (S n))))))) (loopBody id)
    {| moduleExports := Data exported;
       scope := [("key", Data (VString k))];
       hostCalls := calls |}
  = Ok (Next,
        {| moduleExports := Data exported;
           scope := [("key", Data (VString k))];
           hostCalls := calls
             ++ (if isFunction v then [registerCall v id (VString k)] else []) |}).
Proof.
  intros Hk.
  destruct exported; try discriminate Hk; step_eval; rewrite Hk; step_eval;
    fold (isFunction v); destruct (isFunction v); step_eval;
    rewrite ?Hk, ?app_nil_r; reflexivity.
Qed.

(** The loop, by induction on the keys still to visit. *)
Lemma forInLoop_registers id exported n ks : forall calls,
  (forall k, In k ks -> exists v, assoc k (enumerableProps exported) = Some v) ->
  forInLoop (execStatement (S (S (S (S (S (S (S n))))))) (loopBody id)) "key" ks
    (topLevel (Data exported) calls)
  = Ok (Next,
        topLevel (Data exported)
          (calls ++ flat_map (registrationsAt id exported) ks)).
Proof.
  induction ks as [|k ks IH]; intros calls Hks.
  - simpl. rewrite app_nil_r. reflexivity.
  - destruct (Hks k (or_introl eq_refl)) as [v Hv].
    cbn [forInLoop]. unfold topLevel at 1, withScope.
    cbn [scope moduleExports hostCalls].
    rewrite (exec_loopBody _ _ _ _ _ _ Hv). step_eval.
    fold (topLevel (Data exported)
            (calls ++ (if isFunction v then [registerCall v id (VString k)] else []))).
    rewrite IH by (intros k' Hk'; apply Hks; right; exact Hk').
    unfold registrationsAt at 2. rewrite Hv, <- app_assoc. reflexivity.
Qed.

(** Unfolding equations of the evaluator, one per node the generated code
    is made of. *)
Lemma execStatement_block fuel ss rt :
  execStatement (S fuel) (BlockStatement ss) rt
  = execBlock (execStatement fuel) ss rt.
Proof. reflexivity. Qed.

Lemma execStatement_expression fuel e rt :
  execStatement (S fuel) (ExpressionStatement e) rt
  = '(_, rt1) ← evalExpression fuel e rt; mret (Next, rt1).
Proof. reflexivity. Qed.

Lemma execStatement_if fuel test consequent alternate rt :
  execStatement (S fuel) (IfStatement test consequent (Some alternate)) rt
  = '(c, rt1) ← evalExpression fuel test rt;
    if toBoolean c then execStatement fuel consequent rt1
    else execStatement fuel alternate rt1.
Proof. reflexivity. Qed.

Lemma execStatement_forIn fuel kind x rhs body rt :
  execStatement (S fuel)
    (ForInStatement
       (VariableDeclaration kind [VariableDeclarator (Identifier x) None])
       rhs body) rt
  = '(o, rt1) ← evalExpression fuel rhs rt;
    keys ← forInKeys o;
    forInLoop (execStatement fuel body) x keys rt1.
Proof. reflexivity. Qed.

Lemma evalExpression_iife fuel body rt :
  evalExpression (S fuel) (CallExpression (ArrowFunctionExpression [] body) []) rt
  = '(flow, rt2) ← execStatement fuel body rt;
    mret (match flow with Return v => v | Next => Data VUndefined end,
          withScope (scope rt) rt2).
Proof. reflexivity. Qed.

Lemma execBlock_one run s rt :
  execBlock run [s] rt
  = '(flow, rt1) ← run s rt;
    match flow with
    | Next => Ok (Next, rt1)
    | Return v => Ok (Return v, rt1)
    end.
Proof. reflexivity. Qed.

Lemma eval_module_exports exported calls n :
  evalExpression (S (S n))
    (MemberExpression (Identifier "module") (Identifier "exports") false)
    (topLevel exported calls)
  = Ok (exported, topLevel exported calls).
Proof. reflexivity. Qed.

Lemma eval_typeof_exports exported calls n :
  evalExpression (S (S (S (S n))))
    (BinaryExpression "==="
       (UnaryExpression "typeof"
          (MemberExpression (Identifier "module") (Identifier "exports") false))
       (StringLiteral "function"))
    (topLevel (Data exported) calls)
  = Ok (Data (VBoolean (isFunction exported)), topLevel (Data exported) calls).
Proof. reflexivity. Qed.

Lemma exec_register_whole id exported calls n :
  execStatement (S (S (S (S (S (S (S n)))))))
    (BlockStatement [
       ExpressionStatement
         (CallExpression mmexp [
            MemberExpression (Identifier "module") (Identifier "exports") false;
            StringLiteral id;
            NullLiteral ]) ])
    (topLevel (Data exported) calls)
  = Ok (Next, topLevel (Data exported) (calls ++ [registerCall exported id VNull])).
Proof. reflexivity. Qed.

Lemma exec_forInStatement id exported calls n :
  execStatement (S (S (S (S (S (S (S (S n)))))))) (forInStatement id)
    (topLevel (Data exported) calls)
  = Ok (Next,
        topLevel (Data exported)
          (calls ++ flat_map (registrationsAt id exported)
                      (map fst (enumerableProps exported)))).
Proof.
  unfold forInStatement, t.forInStatement, t.variableDeclaration,
    t.variableDeclarator, t.memberExpression, t.identifier.
  rewrite execStatement_forIn, eval_module_exports.
  unfold mbind at 1 2, Result_bind, forInKeys.
  apply forInLoop_registers.
  intros k Hk. apply assoc_map_fst, Hk.
Qed.

(** The whole wrapper at the top level of a module whose [module.exports]
    is [exported]. *)
Lemma wrapper_registers id exported calls extra :
  execStatement (enoughFuel + extra) (serverRegistrationStatement id)
    (topLevel (Data exported) calls)
  = Ok (Next,
        topLevel (Data exported)
          (calls ++ if isFunction exported
                    then [registerCall exported id VNull]
                    else flat_map (registrationsAt id exported)
                           (map fst (enumerableProps exported)))).
Proof.
  unfold enoughFuel, serverRegistrationStatement, t.expressionStatement,
    t.callExpression, t.arrowFunctionExpression, t.blockStatement,
    t.ifStatement, t.binaryExpression, t.unaryExpression, t.memberExpression,
    t.identifier, t.stringLiteral, t.nullLiteral.
  change (13 + extra) with (S (S (S (S (S (S (S (S (S (S (S (S (S extra))))))))))))).
  rewrite execStatement_expression, evalExpression_iife, execStatement_block,
    execBlock_one, execStatement_if, eval_typeof_exports.
  unfold mbind at 4, Result_bind at 4. cbn [toBoolean].
  destruct (isFunction exported).
  - rewrite exec_register_whole. reflexivity.
  - rewrite execStatement_block, execBlock_one, exec_forInStatement. reflexivity.
Qed.

Lemma flat_map_ext_In {A B : Type} (f g : A -> list B) (l : list A) :
  (forall a, In a l -> f a = g a) -> flat_map f l = flat_map g l.
Proof.
  induction l as [|a l IH]; intros Hfg; simpl; [reflexivity|].
  rewrite (Hfg a (or_introl eq_refl)), IH; [reflexivity|].
  intros b Hb. apply Hfg. right. exact Hb.
Qed.

(** With distinct keys the loop registers exactly the function-valued
    properties, each once, in enumeration order. *)
Lemma registrations_of_object id props :
  NoDup (map fst props) ->
  flat_map (registrationsAt id (VObject props)) (map fst props)
  = flat_map (fun kv => if isFunction (snd kv)
                        then [registerCall (snd kv) id (VString (fst kv))]
                        else [])
      props.
Proof.
  intros Hnd. rewrite flat_map_concat_map, map_map, <- flat_map_concat_map.
  apply flat_map_ext_In. intros [k v] Hin. unfold registrationsAt.
  change (enumerableProps (VObject props)) with props.
  simpl. rewrite (assoc_NoDup k v props Hnd Hin). reflexivity.
Qed.

(** The ["use client"] statement replaces [module.exports] by the proxy the
    adapter builds for [id]. *)
Lemma proxy_assigned id exported calls extra :
  execStatement (6 + extra) (clientProxyStatement id) (topLevel exported calls)
  = Ok (Next,
        topLevel (HostValue (ClientModuleProxy id))
          (calls ++ [(CreateClientModuleProxy, [Data (VString id)])])).
Proof. reflexivity. Qed.

(** ** Main results *)

(** C1.  A module whose directive list holds both ["use client"] and
    ["use server"] makes the visitor throw the code-frame error built on the
    program node, in both artifacts and whatever the body, the file name and
    the build target; the world it leaves is the world it was given, so no
    export was collected ([debugLog]), no manifest recorded ([metadata]) and
    nothing rewritten ([node]). *)
Theorem conflicting_directives_rejected
    (pathToFileURL : string -> string) (isServer : bool) (w : World) :
  isUseClient w = true ->
  isUseServer w = true ->
  Src.Program pathToFileURL isServer w
    = (Throw (CodeFrameError (node w) conflictMessage), w)
  /\ Build.Program pathToFileURL w
    = (Throw (CodeFrameError (node w) conflictMessage), w).
Proof.
  intros Hc Hs. split.
  - apply Src_conflict; assumption.
  - apply Build_conflict; assumption.
Qed.

Lemma conflicting_directives_rejected_witness :
  Src.Program Sample.file_url true Sample.conflictModule
    = (Throw (CodeFrameError (node Sample.conflictModule) conflictMessage),
       Sample.conflictModule)
  /\ Build.Program Sample.file_url Sample.conflictModule
    = (Throw (CodeFrameError (node Sample.conflictModule) conflictMessage),
       Sample.conflictModule).
Proof.
  apply (conflicting_directives_rejected Sample.file_url true Sample.conflictModule);
    reflexivity.
Defined.

(** C2.  For a module with ["use client"] only and a file name, once the
    rewrite applies (a server build for the source, always for the compiled
    file) the visitor returns normally and the body is exactly the one
    statement [module.exports = require(adapter).createClientModuleProxy(url)]
    with the file URL as its only, literal, argument; run at the top level
    of a module, that statement asks the adapter for the proxy of the URL
    and puts it in [module.exports]. *)
Theorem use_client_body_is_proxy_assignment
    (pathToFileURL : string -> string) (w : World) :
  isUseClient w = true ->
  isUseServer w = false ->
  hasFilename w = true ->
  (fst (Src.Program pathToFileURL true w) = Normal tt
   /\ body (node (snd (Src.Program pathToFileURL true w)))
      = [clientProxyStatement (pathToFileURL (filePathOf w))])
  /\ (fst (Build.Program pathToFileURL w) = Normal tt
      /\ body (node (snd (Build.Program pathToFileURL w)))
         = [clientProxyStatement (pathToFileURL (filePathOf w))])
  /\ clientProxyStatement (pathToFileURL (filePathOf w))
     = ExpressionStatement
         (AssignmentExpression "="
            (MemberExpression (Identifier "module") (Identifier "exports") false)
            (CallExpression
               (MemberExpression
                  (CallExpression (Identifier "require")
                     [StringLiteral "react-server-dom-webpack/server"])
                  (Identifier "createClientModuleProxy") false)
               [StringLiteral (pathToFileURL (filePathOf w))]))
  /\ (forall exported calls extra,
        execStatement (6 + extra)
          (clientProxyStatement (pathToFileURL (filePathOf w)))
          (topLevel exported calls)
        = Ok (Next,
              topLevel (HostValue (ClientModuleProxy (pathToFileURL (filePathOf w))))
                (calls ++ [(CreateClientModuleProxy,
                            [Data (VString (pathToFileURL (filePathOf w)))])]))).
Proof.
  intros Hc Hs Hf.
  rewrite Src_use_client, Build_use_client by assumption.
  split; [split; reflexivity|].
  split; [split; reflexivity|].
  split; [reflexivity|].
  intros exported calls extra. apply proxy_assigned.
Qed.

Lemma use_client_body_is_proxy_assignment_witness :
  body (node (snd (Src.Program Sample.file_url true Sample.clientModule)))
    = [clientProxyStatement "file:///app/button.js"]
  /\ body (node (snd (Build.Program Sample.file_url Sample.clientModule)))
    = [clientProxyStatement "file:///app/button.js"].
Proof.
  destruct (use_client_body_is_proxy_assignment Sample.file_url Sample.clientModule
              eq_refl eq_refl eq_refl) as ((_ & Hsrc) & (_ & Hbuild) & _).
  split; [exact Hsrc | exact Hbuild].
Defined.

(** C3.  For a module with ["use server"] only and a file name, once the
    rewrite applies the visitor pushes one statement, the self-invoking
    arrow function, after the statements already there.  Run at the top
    level of a module whose [module.exports] is [exported], that statement
    calls [registerServerReference(module.exports, url, null)] once when
    [typeof module.exports] is ['function']; otherwise it walks the
    enumerable keys of [module.exports] and calls
    [registerServerReference(module.exports[key], url, key)] for the keys
    whose value is a function and for no other: for an object with distinct
    keys, exactly its function-valued properties, in order. *)
Theorem use_server_emits_registration_wrapper
    (pathToFileURL : string -> string) (w : World) :
  isUseClient w = false ->
  isUseServer w = true ->
  hasFilename w = true ->
  (fst (Src.Program pathToFileURL true w) = Normal tt
   /\ body (node (snd (Src.Program pathToFileURL true w)))
      = body (node w)
        ++ [serverRegistrationStatement (pathToFileURL (filePathOf w))])
  /\ (fst (Build.Program pathToFileURL w) = Normal tt
      /\ body (node (snd (Build.Program pathToFileURL w)))
         = body (node w)
           ++ [serverRegistrationStatement (pathToFileURL (filePathOf w))])
  /\ (forall exported calls extra,
        execStatement (enoughFuel + extra)
          (serverRegistrationStatement (pathToFileURL (filePathOf w)))
          (topLevel (Data exported) calls)
        = Ok (Next,
              topLevel (Data exported)
                (calls
                 ++ if isFunction exported
                    then [registerCall exported (pathToFileURL (filePathOf w)) VNull]
                    else flat_map
                           (registrationsAt (pathToFileURL (filePathOf w)) exported)
                           (map fst (enumerableProps exported)))))
  /\ (forall props,
        NoDup (map fst props) ->
        flat_map (registrationsAt (pathToFileURL (filePathOf w)) (VObject props))
          (map fst (enumerableProps (VObject props)))
        = flat_map
            (fun kv =>
               if isFunction (snd kv)
               then [registerCall (snd kv) (pathToFileURL (filePathOf w))
                       (VString (fst kv))]
               else [])
            props).
Proof.
  intros Hc Hs Hf.
  rewrite Src_use_server, Build_use_server by assumption.
  split; [split; reflexivity|].
  split; [split; reflexivity|].
  split.
  - intros exported calls extra. apply wrapper_registers.
  - intros props Hnd. apply registrations_of_object, Hnd.
Qed.

Lemma use_server_emits_registration_wrapper_witness :
  body (node (snd (Src.Program Sample.file_url true Sample.serverModule)))
    = [Sample.exportDoThing; serverRegistrationStatement "file:///app/actions.js"]
  /\ execStatement enoughFuel (serverRegistrationStatement "file:///app/actions.js")
       (topLevel (Data Sample.actionExports) [])
     = Ok (Next,
           topLevel (Data Sample.actionExports)
             [registerCall (VFunction "doThing") "file:///app/actions.js"
                (VString "doThing");
              registerCall (VFunction "undo") "file:///app/actions.js"
                (VString "undo")]).
Proof.
  destruct (use_server_emits_registration_wrapper Sample.file_url Sample.serverModule
              eq_refl eq_refl eq_refl) as ((_ & Hsrc) & _ & Hrun & _).
  split; [exact Hsrc | exact (Hrun Sample.actionExports [] 0)].
Defined.

(** C4, as the code has it.  When the rewrite applies to a module with a
    file name, the ["use client"] path clears both lists and leaves the
    proxy assignment as the whole body, while the ["use server"] path clears
    nothing: the statements and the directives stay as they were and the
    registration wrapper is added after the last statement.  Both artifacts
    agree on this. *)
Theorem rewrite_replaces_client_body_and_extends_server_body
    (pathToFileURL : string -> string) (w : World) :
  hasFilename w = true ->
  (isUseClient w = true -> isUseServer w = false ->
   node (snd (Src.Program pathToFileURL true w))
     = {| body := [clientProxyStatement (pathToFileURL (filePathOf w))];
          directives := [] |}
   /\ node (snd (Build.Program pathToFileURL w))
     = {| body := [clientProxyStatement (pathToFileURL (filePathOf w))];
          directives := [] |})
  /\ (isUseClient w = false -> isUseServer w = true ->
      node (snd (Src.Program pathToFileURL true w))
        = {| body := body (node w)
               ++ [serverRegistrationStatement (pathToFileURL (filePathOf w))];
             directives := directives (node w) |}
      /\ node (snd (Build.Program pathToFileURL w))
        = {| body := body (node w)
               ++ [serverRegistrationStatement (pathToFileURL (filePathOf w))];
             directives := directives (node w) |}).
Proof.
  intros Hf. split; intros Hc Hs.
  - rewrite Src_use_client, Build_use_client by assumption. split; reflexivity.
  - rewrite Src_use_server, Build_use_server by assumption. split; reflexivity.
Qed.

Lemma rewrite_replaces_client_body_and_extends_server_body_witness :
  node (snd (Src.Program Sample.file_url true Sample.clientModule))
    = {| body := [clientProxyStatement "file:///app/button.js"]; directives := [] |}
  /\ node (snd (Build.Program Sample.file_url Sample.serverModule))
    = {| body := [Sample.exportDoThing;
                  serverRegistrationStatement "file:///app/actions.js"];
         directives := [Sample.useServer] |}.
Proof.
  split.
  - apply (rewrite_replaces_client_body_and_extends_server_body
             Sample.file_url Sample.clientModule eq_refl); reflexivity.
  - apply (rewrite_replaces_client_body_and_extends_server_body
             Sample.file_url Sample.serverModule eq_refl); reflexivity.
Defined.

(** C4 fails as stated: after the rewrite of a ["use server"] module the
    directive is still there and the exported function is still the first
    statement, in both artifacts. *)
Lemma use_server_rewrite_keeps_body_and_directives :
  (isUseClient Sample.serverModule = false
   /\ isUseServer Sample.serverModule = true
   /\ hasFilename Sample.serverModule = true)
  /\ directives (node (snd (Src.Program Sample.file_url true Sample.serverModule)))
     = [Sample.useServer]
  /\ body (node (snd (Src.Program Sample.file_url true Sample.serverModule)))
     = [Sample.exportDoThing; serverRegistrationStatement "file:///app/actions.js"]
  /\ directives (node (snd (Build.Program Sample.file_url Sample.serverModule)))
     = [Sample.useServer]
  /\ body (node (snd (Build.Program Sample.file_url Sample.serverModule)))
     = [Sample.exportDoThing; serverRegistrationStatement "file:///app/actions.js"]
  /\ ~ (directives (node (snd (Src.Program Sample.file_url true Sample.serverModule)))
        = []
        /\ body (node (snd (Src.Program Sample.file_url true Sample.serverModule)))
           = [serverRegistrationStatement "file:///app/actions.js"]).
Proof.
  repeat split; try reflexivity.
  intros [Hd _]. vm_compute in Hd. discriminate Hd.
Qed.

(** C5, as the code has it.  For a module with exactly one boundary
    directive and a file name, the source stores the record
    [{ entryPoint: url, exports }] under ['clientReferences'] for either
    directive and whether or not the build is a server build, and touches no
    other key; the compiled file does the same for ["use client"] and leaves
    the metadata of a ["use server"] module as it was. *)
Theorem manifest_recorded_by_source_always_by_build_for_use_client
    (pathToFileURL : string -> string) (w : World) :
  xorb (isUseClient w) (isUseServer w) = true ->
  hasFilename w = true ->
  (forall isServer,
     metadata (file (snd (Src.Program pathToFileURL isServer w)))
     = <["clientReferences" :=
           MetaClientReferences
             {| entryPoint := pathToFileURL (filePathOf w);
                exports := collectExports (node w) |}]>
         (metadata (file w)))
  /\ (isUseClient w = true ->
      metadata (file (snd (Build.Program pathToFileURL w)))
      = <["clientReferences" :=
            MetaClientReferences
              {| entryPoint := pathToFileURL (filePathOf w);
                 exports := collectExports (node w) |}]>
          (metadata (file w)))
  /\ (isUseServer w = true ->
      metadata (file (snd (Build.Program pathToFileURL w))) = metadata (file w)).
Proof.
  intros Hone Hf.
  destruct (isUseClient w) eqn:Hc, (isUseServer w) eqn:Hs; try discriminate Hone.
  - repeat split; try discriminate.
    + intros [|].
      * rewrite Src_use_client by assumption. reflexivity.
      * rewrite Src_client_build by (try rewrite Hc, Hs; auto). reflexivity.
    + intros _. rewrite Build_use_client by assumption. reflexivity.
  - repeat split; try discriminate.
    + intros [|].
      * rewrite Src_use_server by assumption. reflexivity.
      * rewrite Src_client_build by (try rewrite Hc, Hs; auto). reflexivity.
    + intros _. rewrite Build_use_server by assumption. reflexivity.
Qed.

Lemma manifest_recorded_witness :
  metadata (file (snd (Src.Program Sample.file_url false Sample.serverModule)))
  = <["clientReferences" :=
        MetaClientReferences
          {| entryPoint := "file:///app/actions.js";
             exports := [Some "doThing"] |}]> ∅.
Proof.
  destruct (manifest_recorded_by_source_always_by_build_for_use_client
              Sample.file_url Sample.serverModule eq_refl eq_refl) as (Hsrc & _).
  exact (Hsrc false).
Defined.

(** C5 fails as stated: the compiled file attaches no record to a
    ["use server"] module that has a file name. *)
Lemma build_records_nothing_for_use_server :
  (isUseClient Sample.serverModule = false
   /\ isUseServer Sample.serverModule = true
   /\ hasFilename Sample.serverModule = true)
  /\ fst (Build.Program Sample.file_url Sample.serverModule) = Normal tt
  /\ metadata (file (snd (Build.Program Sample.file_url Sample.serverModule)))
       !! "clientReferences"
     = None.
Proof. repeat split. Qed.

(** C6.  A module whose directive list holds neither ["use client"] nor
    ["use server"] comes out of the visitor as it went in, in both
    artifacts: statements, directives, metadata (so no manifest record) and
    the [debug] log are untouched; the visitor returns normally when the
    file has a name. *)
Theorem no_directive_is_pass_through
    (pathToFileURL : string -> string) (isServer : bool) (w : World) :
  isUseClient w = false ->
  isUseServer w = false ->
  (snd (Src.Program pathToFileURL isServer w) = w
   /\ snd (Build.Program pathToFileURL w) = w)
  /\ (hasFilename w = true ->
      fst (Src.Program pathToFileURL isServer w) = Normal tt
      /\ fst (Build.Program pathToFileURL w) = Normal tt).
Proof.
  intros Hc Hs. destruct (hasFilename w) eqn:Hf.
  - rewrite Src_neither, Build_neither by assumption. repeat split.
  - rewrite Src_no_filename, Build_no_filename by (try rewrite Hc, Hs; auto).
    repeat split; discriminate.
Qed.

Lemma no_directive_is_pass_through_witness :
  snd (Src.Program Sample.file_url true Sample.plainModule) = Sample.plainModule
  /\ snd (Build.Program Sample.file_url Sample.plainModule) = Sample.plainModule.
Proof.
  apply (no_directive_is_pass_through Sample.file_url true Sample.plainModule);
    reflexivity.
Defined.

(** C7 fails on the code.  For [export const { a, b } = obj;] in a
    ["use client"] module the declarator's [id] is an object pattern, which
    has no [name]: the collector pushes [undefined] once, not the binding
    names [a] and [b], and that is what the manifest holds in both
    artifacts. *)
Theorem destructured_export_recorded_as_undefined :
  collectExports (node Sample.destructuringModule) = [None]
  /\ metadata (file (snd (Src.Program Sample.file_url true Sample.destructuringModule)))
       !! "clientReferences"
     = Some (MetaClientReferences
               {| entryPoint := "file:///app/hooks.js"; exports := [None] |})
  /\ metadata (file (snd (Build.Program Sample.file_url Sample.destructuringModule)))
       !! "clientReferences"
     = Some (MetaClientReferences
               {| entryPoint := "file:///app/hooks.js"; exports := [None] |}).
Proof. repeat split. Qed.

(** The example of C7 that does hold: [foo] and a default export. *)
Lemma foo_and_default_recorded :
  metadata (file (snd (Src.Program Sample.file_url true Sample.clientModule)))
    !! "clientReferences"
  = Some (MetaClientReferences
            {| entryPoint := "file:///app/button.js";
               exports := [Some "foo"; Some "default"] |})
  /\ metadata (file (snd (Build.Program Sample.file_url Sample.clientModule)))
       !! "clientReferences"
     = Some (MetaClientReferences
               {| entryPoint := "file:///app/button.js";
                  exports := [Some "foo"; Some "default"] |}).
Proof. repeat split. Qed.

(** C8, as the code has it.  After the ["use client"] rewrite of a module
    with a file name the directive list is empty, and running the visitor
    again on the result returns normally and changes nothing: statements,
    directives, metadata and log stay as the first run left them.  This
    holds for the source (first run in a server build, second run in any
    build) and for the compiled file. *)
Theorem second_run_after_client_rewrite_is_noop
    (pathToFileURL : string -> string) (w : World) :
  isUseClient w = true ->
  isUseServer w = false ->
  hasFilename w = true ->
  (directives (node (snd (Src.Program pathToFileURL true w))) = []
   /\ forall isServer,
        Src.Program pathToFileURL isServer (snd (Src.Program pathToFileURL true w))
        = (Normal tt, snd (Src.Program pathToFileURL true w)))
  /\ (directives (node (snd (Build.Program pathToFileURL w))) = []
      /\ Build.Program pathToFileURL (snd (Build.Program pathToFileURL w))
         = (Normal tt, snd (Build.Program pathToFileURL w))).
Proof.
  intros Hc Hs Hf.
  rewrite Src_use_client, Build_use_client by assumption.
  split; (split; [reflexivity|]).
  - intros isServer. apply Src_neither; [reflexivity | reflexivity | exact Hf].
  - apply Build_neither; [reflexivity | reflexivity | exact Hf].
Qed.

Lemma second_run_after_client_rewrite_is_noop_witness :
  Src.Program Sample.file_url true
    (snd (Src.Program Sample.file_url true Sample.clientModule))
  = (Normal tt, snd (Src.Program Sample.file_url true Sample.clientModule)).
Proof.
  destruct (second_run_after_client_rewrite_is_noop Sample.file_url
              Sample.clientModule eq_refl eq_refl eq_refl) as ((_ & Hsrc) & _).
  exact (Hsrc true).
Defined.

(** C8 fails as stated: a rewritten ["use server"] module still carries its
    directive, and a second run adds a second registration wrapper. *)
Lemma second_run_on_server_module_adds_wrapper :
  directives (node (snd (Src.Program Sample.file_url true Sample.serverModule)))
    = [Sample.useServer]
  /\ body (node (snd (Src.Program Sample.file_url true
                        (snd (Src.Program Sample.file_url true Sample.serverModule)))))
     = [Sample.exportDoThing;
        serverRegistrationStatement "file:///app/actions.js";
        serverRegistrationStatement "file:///app/actions.js"]
  /\ body (node (snd (Build.Program Sample.file_url
                        (snd (Build.Program Sample.file_url Sample.serverModule)))))
     = [Sample.exportDoThing;
        serverRegistrationStatement "file:///app/actions.js";
        serverRegistrationStatement "file:///app/actions.js"]
  /\ snd (Src.Program Sample.file_url true
            (snd (Src.Program Sample.file_url true Sample.serverModule)))
     <> snd (Src.Program Sample.file_url true Sample.serverModule).
Proof.
  repeat split.
  intros H. apply (f_equal (fun x => length (body (node x)))) in H.
  vm_compute in H. discriminate H.
Qed.

(** C9, as the code has it.  The two artifacts always complete the same way
    (the same error or a normal return).  They leave the same world on a
    module with both directives, with no file name, or with neither
    directive, and, in a server build, on a module without ["use server"].
    In a server build they produce the same statements and directives for
    every module; what differs then is the metadata and the log of a
    ["use server"] module, which only the source writes. *)
Theorem artifacts_agree_where_guards_coincide
    (pathToFileURL : string -> string) (isServer : bool) (w : World) :
  fst (Src.Program pathToFileURL isServer w) = fst (Build.Program pathToFileURL w)
  /\ (isUseClient w && isUseServer w = true
      \/ hasFilename w = false
      \/ isUseClient w || isUseServer w = false
      \/ (isServer = true /\ isUseServer w = false) ->
      Src.Program pathToFileURL isServer w = Build.Program pathToFileURL w)
  /\ (isServer = true ->
      node (snd (Src.Program pathToFileURL isServer w))
      = node (snd (Build.Program pathToFileURL w))).
Proof.
  destruct (isUseClient w) eqn:Hc, (isUseServer w) eqn:Hs, (hasFilename w) eqn:Hf;
    try (rewrite Src_conflict, Build_conflict by assumption;
         repeat split; reflexivity);
    try (rewrite Src_no_filename, Build_no_filename by (try rewrite Hc, Hs; auto);
         repeat split; reflexivity);
    try (rewrite Src_neither, Build_neither by assumption;
         repeat split; reflexivity).
  - rewrite Build_use_client by assumption. destruct isServer.
    + rewrite Src_use_client by assumption. repeat split; reflexivity.
    + rewrite Src_client_build by (try rewrite Hc, Hs; auto).
      repeat split; try discriminate.
      intros [H | [H | [H | [H _]]]]; discriminate H.
  - rewrite Build_use_server by assumption. destruct isServer.
    + rewrite Src_use_server by assumption. repeat split.
      intros [H | [H | [H | [_ H]]]]; discriminate H.
    + rewrite Src_client_build by (try rewrite Hc, Hs; auto).
      repeat split; try discriminate.
      intros [H | [H | [H | [H _]]]]; discriminate H.
Qed.

(** C9 fails as stated: for a ["use server"] module in a server build only
    the source attaches the manifest, and for a ["use client"] module
    outside a server build only the compiled file rewrites the body. *)
Lemma artifacts_differ :
  (metadata (file (snd (Src.Program Sample.file_url true Sample.serverModule)))
     !! "clientReferences"
   = Some (MetaClientReferences
             {| entryPoint := "file:///app/actions.js";
                exports := [Some "doThing"] |})
   /\ metadata (file (snd (Build.Program Sample.file_url Sample.serverModule)))
        !! "clientReferences"
      = None)
  /\ (body (node (snd (Src.Program Sample.file_url false Sample.clientModule)))
      = [Sample.exportFoo; Sample.exportDefault]
      /\ body (node (snd (Build.Program Sample.file_url Sample.clientModule)))
         = [clientProxyStatement "file:///app/button.js"])
  /\ Src.Program Sample.file_url true Sample.serverModule
     <> Build.Program Sample.file_url Sample.serverModule.
Proof.
  repeat split.
  intros H.
  apply (f_equal (fun r => length (debugLog (snd r)))) in H.
  vm_compute in H. discriminate H.
Qed.

(** C10, as the code has it.  A module without a file name that does not
    carry both directives makes the visitor throw the missing-filename
    error, also when it carries neither directive: the check stands before
    the early return.  The world is left as it was. *)
Theorem missing_filename_thrown_before_early_return
    (pathToFileURL : string -> string) (isServer : bool) (w : World) :
  hasFilename w = false ->
  isUseClient w && isUseServer w = false ->
  Src.Program pathToFileURL isServer w = (Throw (Error filenameMessage), w)
  /\ Build.Program pathToFileURL w = (Throw (Error filenameMessage), w).
Proof.
  intros Hf Hcs. split.
  - apply Src_no_filename; assumption.
  - apply Build_no_filename; assumption.
Qed.

Lemma missing_filename_thrown_before_early_return_witness :
  (isUseClient Sample.unnamedPlainModule = false
   /\ isUseServer Sample.unnamedPlainModule = false)
  /\ Src.Program Sample.file_url true Sample.unnamedPlainModule
     = (Throw (Error filenameMessage), Sample.unnamedPlainModule)
  /\ Build.Program Sample.file_url Sample.unnamedPlainModule
     = (Throw (Error filenameMessage), Sample.unnamedPlainModule).
Proof.
  split; [split; reflexivity|].
  apply (missing_filename_thrown_before_early_return Sample.file_url true
           Sample.unnamedPlainModule); reflexivity.
Defined.

(** C10 fails as stated: with both directives and no file name the
    conflict error is thrown, not the missing-filename error. *)
Lemma conflict_precedes_missing_filename :
  hasFilename Sample.unnamedConflictModule = false
  /\ fst (Src.Program Sample.file_url true Sample.unnamedConflictModule)
     = Throw (CodeFrameError (node Sample.unnamedConflictModule) conflictMessage)
  /\ fst (Build.Program Sample.file_url Sample.unnamedConflictModule)
     = Throw (CodeFrameError (node Sample.unnamedConflictModule) conflictMessage)
  /\ fst (Src.Program Sample.file_url true Sample.unnamedConflictModule)
     <> Throw (Error filenameMessage).
Proof. repeat split. intros H. vm_compute in H. discriminate H. Qed.

(** * Further properties of the visitor *)

(** ** Every run ends in one of six ways *)

Lemma Src_cases (pathToFileURL : string -> string) (isServer : bool) (w : World) :
  Src.Program pathToFileURL isServer w
    = (Throw (CodeFrameError (node w) conflictMessage), w)
  \/ Src.Program pathToFileURL isServer w = (Throw (Error filenameMessage), w)
  \/ Src.Program pathToFileURL isServer w = (Normal tt, w)
  \/ Src.Program pathToFileURL isServer w = (Normal tt, recorded pathToFileURL w)
  \/ Src.Program pathToFileURL isServer w
     = (Normal tt,
        withNode (clientRewritten pathToFileURL w) (recorded pathToFileURL w))
  \/ Src.Program pathToFileURL isServer w
     = (Normal tt,
        withNode (serverRewritten pathToFileURL w) (recorded pathToFileURL w)).
Proof.
  destruct (isUseClient w) eqn:Hc, (isUseServer w) eqn:Hs, (hasFilename w) eqn:Hf;
    try (left; apply Src_conflict; assumption);
    try (right; left; apply Src_no_filename; [rewrite Hc, Hs|]; auto; fail);
    try (right; right; left; apply Src_neither; assumption).
  - destruct isServer.
    + do 4 right. left. apply Src_use_client; assumption.
    + do 3 right. left. apply Src_client_build; [rewrite Hc, Hs| rewrite Hc, Hs|]; auto.
  - destruct isServer.
    + do 5 right. apply Src_use_server; assumption.
    + do 3 right. left. apply Src_client_build; [rewrite Hc, Hs| rewrite Hc, Hs|]; auto.
Qed.

Lemma Build_cases (pathToFileURL : string -> string) (w : World) :
  Build.Program pathToFileURL w
    = (Throw (CodeFrameError (node w) conflictMessage), w)
  \/ Build.Program pathToFileURL w = (Throw (Error filenameMessage), w)
  \/ Build.Program pathToFileURL w = (Normal tt, w)
  \/ Build.Program pathToFileURL w
     = (Normal tt,
        withNode (clientRewritten pathToFileURL w) (recorded pathToFileURL w))
  \/ Build.Program pathToFileURL w
     = (Normal tt, withNode (serverRewritten pathToFileURL w) w).
Proof.
  destruct (isUseClient w) eqn:Hc, (isUseServer w) eqn:Hs, (hasFilename w) eqn:Hf;
    try (left; apply Build_conflict; assumption);
    try (right; left; apply Build_no_filename; [rewrite Hc, Hs|]; auto; fail);
    try (right; right; left; apply Build_neither; assumption).
  - do 3 right. left. apply Build_use_client; assumption.
  - do 4 right. apply Build_use_server; assumption.
Qed.

(** X1.  How a run completes is decided by the two directives and the file
    name alone, the same way in both artifacts: the conflict error when both
    directives are present, else the missing-filename error when the file
    name is absent or empty, else a normal return; no later step (export
    collection, metadata, rewrite) can throw. *)
Theorem completion_decided_by_directives_and_filename
    (pathToFileURL : string -> string) (isServer : bool) (w : World) :
  fst (Src.Program pathToFileURL isServer w)
    = (if isUseClient w && isUseServer w
       then Throw (CodeFrameError (node w) conflictMessage)
       else if hasFilename w then Normal tt
       else Throw (Error filenameMessage))
  /\ fst (Build.Program pathToFileURL w)
     = (if isUseClient w && isUseServer w
        then Throw (CodeFrameError (node w) conflictMessage)
        else if hasFilename w then Normal tt
        else Throw (Error filenameMessage)).
Proof.
  destruct (isUseClient w) eqn:Hc, (isUseServer w) eqn:Hs, (hasFilename w) eqn:Hf;
    cbn [andb];
    try (rewrite Src_conflict, Build_conflict by assumption; split; reflexivity);
    try (rewrite Src_no_filename, Build_no_filename by (try rewrite Hc, Hs; auto);
         split; reflexivity);
    try (rewrite Src_neither, Build_neither by assumption; split; reflexivity).
  - rewrite Build_use_client by assumption. destruct isServer.
    + rewrite Src_use_client by assumption. split; reflexivity.
    + rewrite Src_client_build by (try rewrite Hc, Hs; auto). split; reflexivity.
  - rewrite Build_use_server by assumption. destruct isServer.
    + rewrite Src_use_server by assumption. split; reflexivity.
    + rewrite Src_client_build by (try rewrite Hc, Hs; auto). split; reflexivity.
Qed.

(** X2.  A run that throws has changed nothing: whenever the source throws,
    the compiled file throws the same error, and both leave the node, the
    file and the log exactly as they were given. *)
Theorem throwing_run_changes_nothing
    (pathToFileURL : string -> string) (isServer : bool) (w : World)
    (e : Thrown) :
  fst (Src.Program pathToFileURL isServer w) = Throw e ->
  snd (Src.Program pathToFileURL isServer w) = w
  /\ Build.Program pathToFileURL w = (Throw e, w).
Proof.
  destruct (isUseClient w) eqn:Hc, (isUseServer w) eqn:Hs, (hasFilename w) eqn:Hf;
    try (rewrite Src_conflict, Build_conflict by assumption;
         intros [= <-]; split; reflexivity);
    try (rewrite Src_no_filename, Build_no_filename by (try rewrite Hc, Hs; auto);
         intros [= <-]; split; reflexivity);
    try (rewrite Src_neither by assumption; discriminate).
  - destruct isServer.
    + rewrite Src_use_client by assumption. discriminate.
    + rewrite Src_client_build by (try rewrite Hc, Hs; auto). discriminate.
  - destruct isServer.
    + rewrite Src_use_server by assumption. discriminate.
    + rewrite Src_client_build by (try rewrite Hc, Hs; auto). discriminate.
Qed.

Lemma throwing_run_changes_nothing_witness :
  snd (Src.Program Sample.file_url false Sample.unnamedPlainModule)
    = Sample.unnamedPlainModule
  /\ Build.Program Sample.file_url Sample.unnamedPlainModule
     = (Throw (Error filenameMessage), Sample.unnamedPlainModule).
Proof.
  apply (throwing_run_changes_nothing Sample.file_url false
           Sample.unnamedPlainModule (Error filenameMessage)).
  reflexivity.
Defined.

(** X3.  The only thing a run writes in the file state is the
    ['clientReferences'] entry of the metadata: the file name and every
    other metadata key come out as they went in, in both artifacts and for
    every module, rewritten or not. *)
Theorem other_metadata_and_filename_untouched
    (pathToFileURL : string -> string) (isServer : bool) (w : World)
    (key : string) :
  key <> "clientReferences" ->
  (metadata (file (snd (Src.Program pathToFileURL isServer w))) !! key
     = metadata (file w) !! key
   /\ filename (file (snd (Src.Program pathToFileURL isServer w)))
      = filename (file w))
  /\ (metadata (file (snd (Build.Program pathToFileURL w))) !! key
        = metadata (file w) !! key
      /\ filename (file (snd (Build.Program pathToFileURL w)))
         = filename (file w)).
Proof.
  intros Hkey. split.
  - destruct (Src_cases pathToFileURL isServer w)
      as [H | [H | [H | [H | [H | H]]]]]; rewrite H; cbn;
      rewrite ?lookup_insert_ne by (intros Heq; apply Hkey; symmetry; exact Heq);
      split; reflexivity.
  - destruct (Build_cases pathToFileURL w)
      as [H | [H | [H | [H | H]]]]; rewrite H; cbn;
      rewrite ?lookup_insert_ne by (intros Heq; apply Hkey; symmetry; exact Heq);
      split; reflexivity.
Qed.

Lemma other_metadata_and_filename_untouched_witness :
  metadata (file (snd (Src.Program Sample.file_url true Fixture.annotatedModule)))
    !! "coverage"
  = Some (MetaOther "instrumented").
Proof.
  destruct (other_metadata_and_filename_untouched Sample.file_url true
              Fixture.annotatedModule "coverage") as ((Hsrc & _) & _).
  - discriminate.
  - exact Hsrc.
Defined.

(** X4.  Outside a server build the source never rewrites: whatever the
    directives and the file name, the statements and the directives of the
    module come out as they went in (only the manifest and the log can
    change). *)
Theorem client_build_never_rewrites
    (pathToFileURL : string -> string) (w : World) :
  node (snd (Src.Program pathToFileURL false w)) = node w.
Proof.
  destruct (isUseClient w) eqn:Hc, (isUseServer w) eqn:Hs, (hasFilename w) eqn:Hf;
    try (rewrite Src_conflict by assumption; reflexivity);
    try (rewrite Src_no_filename by (try rewrite Hc, Hs; auto); reflexivity);
    try (rewrite Src_neither by assumption; reflexivity);
    rewrite Src_client_build by (try rewrite Hc, Hs; auto); reflexivity.
Qed.

(** X5.  After a rewrite the manifest, the log and the generated statement
    speak of the same module: the [entryPoint] stored under
    ['clientReferences'] is the string literal inside the statement pushed
    last, and the export list stored is the one handed to [debug].  This
    holds for either directive in a server build of the source. *)
Theorem manifest_log_and_statement_share_the_module
    (pathToFileURL : string -> string) (w : World) :
  xorb (isUseClient w) (isUseServer w) = true ->
  hasFilename w = true ->
  exists record entry,
    metadata (file (snd (Src.Program pathToFileURL true w))) !! "clientReferences"
      = Some (MetaClientReferences record)
    /\ last (body (node (snd (Src.Program pathToFileURL true w))))
       = Some (if isUseClient w
               then clientProxyStatement (entryPoint record)
               else serverRegistrationStatement (entryPoint record))
    /\ last (debugLog (snd (Src.Program pathToFileURL true w))) = Some entry
    /\ debug_exports entry = exports record
    /\ pathToFileURL (debug_filePath entry) = entryPoint record.
Proof.
  intros Hone Hf.
  exists {| entryPoint := pathToFileURL (filePathOf w);
            exports := collectExports (node w) |},
         (debugCall "Client references" (filePathOf w) (collectExports (node w))).
  destruct (isUseClient w) eqn:Hc, (isUseServer w) eqn:Hs; try discriminate Hone.
  - rewrite Src_use_client by assumption. cbn.
    rewrite lookup_insert_eq, last_snoc. repeat split.
  - rewrite Src_use_server by assumption. cbn.
    rewrite lookup_insert_eq, !last_snoc. repeat split.
Qed.

Lemma manifest_log_and_statement_share_the_module_witness :
  exists record entry,
    metadata (file (snd (Src.Program Sample.file_url true Sample.serverModule)))
      !! "clientReferences"
      = Some (MetaClientReferences record)
    /\ last (body (node (snd (Src.Program Sample.file_url true Sample.serverModule))))
       = Some (if isUseClient Sample.serverModule
               then clientProxyStatement (entryPoint record)
               else serverRegistrationStatement (entryPoint record))
    /\ last (debugLog (snd (Src.Program Sample.file_url true Sample.serverModule)))
       = Some entry
    /\ debug_exports entry = exports record
    /\ Sample.file_url (debug_filePath entry) = entryPoint record.
Proof.
  apply (manifest_log_and_statement_share_the_module Sample.file_url
           Sample.serverModule); reflexivity.
Defined.

(** The statements the visitor generates hold no export. *)
Lemma generated_statements_export_nothing id :
  traverseStatement (clientProxyStatement id) = []
  /\ traverseStatement (serverRegistrationStatement id) = [].
Proof. split; reflexivity. Qed.

Lemma collectExports_after_push ss ds s :
  traverseStatement s = [] ->
  collectExports {| body := ss ++ [s]; directives := ds |}
  = collectExports {| body := ss; directives := ds |}.
Proof.
  intros Hs. rewrite collectExports_app. unfold collectExports at 2. simpl.
  rewrite Hs. rewrite !app_nil_r. reflexivity.
Qed.

(** X6.  What the collector would find in a rewritten module: nothing after
    the ["use client"] rewrite, since the proxy assignment replaces every
    export, and exactly the exports of the original module after the
    ["use server"] rewrite, since the wrapper adds none.  Both artifacts. *)
Theorem exports_of_rewritten_module
    (pathToFileURL : string -> string) (w : World) :
  xorb (isUseClient w) (isUseServer w) = true ->
  hasFilename w = true ->
  collectExports (node (snd (Src.Program pathToFileURL true w)))
    = (if isUseClient w then [] else collectExports (node w))
  /\ collectExports (node (snd (Build.Program pathToFileURL w)))
     = (if isUseClient w then [] else collectExports (node w)).
Proof.
  intros Hone Hf.
  destruct (isUseClient w) eqn:Hc, (isUseServer w) eqn:Hs; try discriminate Hone.
  - rewrite Src_use_client, Build_use_client by assumption. split; reflexivity.
  - rewrite Src_use_server, Build_use_server by assumption.
    unfold withNode, serverRewritten. cbn [snd node].
    rewrite collectExports_after_push
      by apply generated_statements_export_nothing.
    destruct w as [[? ?] ? ?]. split; reflexivity.
Qed.

Lemma exports_of_rewritten_module_witness :
  collectExports (node (snd (Src.Program Sample.file_url true Sample.serverModule)))
    = [Some "doThing"]
  /\ collectExports (node (snd (Build.Program Sample.file_url Sample.clientModule)))
     = [].
Proof.
  split.
  - apply (exports_of_rewritten_module Sample.file_url Sample.serverModule);
      reflexivity.
  - apply (exports_of_rewritten_module Sample.file_url Sample.clientModule);
      reflexivity.
Defined.

(** ** Repeated runs *)

Lemma runs_S visitor n w : runs visitor (S n) w = snd (visitor (runs visitor n w)).
Proof. reflexivity. Qed.

Lemma collectExports_with_wrappers ss ds id n :
  collectExports
    {| body := ss ++ replicate n (serverRegistrationStatement id); directives := ds |}
  = collectExports {| body := ss; directives := ds |}.
Proof.
  induction n as [|n IH].
  - simpl. rewrite app_nil_r. reflexivity.
  - rewrite replicate_S_end, app_assoc, collectExports_after_push
      by apply generated_statements_export_nothing.
    exact IH.
Qed.

(** The world after [S n] server-build runs of the source on a
    ["use server"] module. *)
Lemma Src_runs_use_server (pathToFileURL : string -> string) (w : World) (n : nat) :
  isUseClient w = false -> isUseServer w = true -> hasFilename w = true ->
  runs (Src.Program pathToFileURL true) (S n) w
  = {| node :=
         {| body := body (node w)
              ++ replicate (S n)
                   (serverRegistrationStatement (pathToFileURL (filePathOf w)));
            directives := directives (node w) |};
       file := file (recorded pathToFileURL w);
       debugLog := debugLog w
         ++ replicate (S n)
              (debugCall "Client references" (filePathOf w)
                 (collectExports (node w))) |}.
Proof.
  intros Hc Hs Hf. induction n as [|n IH].
  - rewrite runs_S. cbn [runs Nat.iter]. rewrite Src_use_server by assumption.
    reflexivity.
  - rewrite runs_S, IH. rewrite Src_use_server by assumption.
    unfold withNode, serverRewritten, recorded, manifestOf, filePathOf.
    cbn [snd node file body directives debugLog filename metadata].
    rewrite collectExports_with_wrappers.
    replace {| body := body (node w); directives := directives (node w) |}
      with (node w) by (destruct (node w); reflexivity).
    rewrite insert_insert_eq.
    rewrite !(replicate_S_end (S n)), !app_assoc. reflexivity.
Qed.

Lemma Build_runs_use_server (pathToFileURL : string -> string) (w : World) (n : nat) :
  isUseClient w = false -> isUseServer w = true -> hasFilename w = true ->
  runs (Build.Program pathToFileURL) n w
  = withNode
      {| body := body (node w)
           ++ replicate n
                (serverRegistrationStatement (pathToFileURL (filePathOf w)));
         directives := directives (node w) |}
      w.
Proof.
  intros Hc Hs Hf. induction n as [|n IH].
  - cbn [runs Nat.iter replicate]. rewrite app_nil_r.
    destruct w as [[? ?] ? ?]. reflexivity.
  - rewrite runs_S, IH. rewrite Build_use_server by assumption.
    unfold withNode, serverRewritten, filePathOf.
    cbn [snd node file body directives debugLog filename].
    rewrite (replicate_S_end n), !app_assoc. reflexivity.
Qed.

(** X7.  Running the visitor again and again on its own output, for a
    module with a file name.  On a ["use client"] module every run after
    the first changes nothing.  On a ["use server"] module every run adds
    one more registration wrapper at the end and keeps the directives, so
    after [n] runs the body is the original statements followed by [n]
    wrappers; the file state written by the first run (the manifest
    included) is not changed by the later ones, and the compiled file never
    writes it. *)
Theorem repeated_runs
    (pathToFileURL : string -> string) (w : World) (n : nat) :
  hasFilename w = true ->
  (isUseClient w = true -> isUseServer w = false ->
   runs (Src.Program pathToFileURL true) (S n) w
     = snd (Src.Program pathToFileURL true w)
   /\ runs (Build.Program pathToFileURL) (S n) w
      = snd (Build.Program pathToFileURL w))
  /\ (isUseClient w = false -> isUseServer w = true ->
      (node (runs (Src.Program pathToFileURL true) n w)
         = {| body := body (node w)
                ++ replicate n
                     (serverRegistrationStatement (pathToFileURL (filePathOf w)));
              directives := directives (node w) |}
       /\ file (runs (Src.Program pathToFileURL true) (S n) w)
          = file (snd (Src.Program pathToFileURL true w)))
      /\ (node (runs (Build.Program pathToFileURL) n w)
            = {| body := body (node w)
                   ++ replicate n
                        (serverRegistrationStatement
                           (pathToFileURL (filePathOf w)));
                 directives := directives (node w) |}
          /\ file (runs (Build.Program pathToFileURL) n w) = file w)).
Proof.
  intros Hf. split; intros Hc Hs.
  - induction n as [|n [IHs IHb]]; [split; reflexivity|].
    split.
    + rewrite runs_S, IHs, (Src_use_client pathToFileURL w Hc Hs Hf).
      cbn [snd].
      rewrite Src_neither; [reflexivity | reflexivity | reflexivity | exact Hf].
    + rewrite runs_S, IHb, (Build_use_client pathToFileURL w Hc Hs Hf).
      cbn [snd].
      rewrite Build_neither; [reflexivity | reflexivity | reflexivity | exact Hf].
  - split; split.
    + destruct n as [|n].
      * cbn [runs Nat.iter replicate]. rewrite app_nil_r.
        destruct w as [[? ?] ? ?]. reflexivity.
      * rewrite Src_runs_use_server by assumption. reflexivity.
    + rewrite Src_runs_use_server, Src_use_server by assumption. reflexivity.
    + rewrite Build_runs_use_server by assumption. reflexivity.
    + rewrite Build_runs_use_server by assumption. reflexivity.
Qed.

Lemma repeated_runs_witness :
  body (node (runs (Src.Program Sample.file_url true) 3 Sample.serverModule))
  = [Sample.exportDoThing;
     serverRegistrationStatement "file:///app/actions.js";
     serverRegistrationStatement "file:///app/actions.js";
     serverRegistrationStatement "file:///app/actions.js"].
Proof.
  destruct (repeated_runs Sample.file_url Sample.serverModule 3 eq_refl)
    as (_ & Hserver).
  destruct (Hserver eq_refl eq_refl) as ((Hnode & _) & _).
  exact (f_equal body Hnode).
Defined.

(** ** Directives count by presence only *)

Lemma hasDirective_Permutation text ds ds' :
  ds ≡ₚ ds' -> hasDirective text ds = hasDirective text ds'.
Proof.
  unfold hasDirective. induction 1 as [|d l l' _ IH|d d' l|l l' l'' _ IH1 _ IH2];
    simpl.
  - reflexivity.
  - rewrite IH. reflexivity.
  - rewrite !orb_assoc, (orb_comm (String.eqb _ _)). reflexivity.
  - rewrite IH1. exact IH2.
Qed.

Lemma hasDirective_boundary_filter text ds :
  text = "use client" \/ text = "use server" ->
  hasDirective text (List.filter isBoundaryDirective ds) = hasDirective text ds.
Proof.
  intros Htext. unfold hasDirective, isBoundaryDirective.
  induction ds as [|d ds IH]; simpl; [reflexivity|].
  destruct (String.eqb (literal_value (directive_value d)) "use client") eqn:Hc,
           (String.eqb (literal_value (directive_value d)) "use server") eqn:Hs;
    simpl; rewrite IH; try reflexivity.
  destruct Htext as [-> | ->]; rewrite ?Hc, ?Hs; reflexivity.
Qed.

(** A run reads the directive list through the two presence tests only. *)
Lemma run_depends_on_presence
    (pathToFileURL : string -> string) (isServer : bool) (w : World)
    (ds : list Directive) :
  hasDirective "use client" ds = isUseClient w ->
  hasDirective "use server" ds = isUseServer w ->
  (body (node (snd (Src.Program pathToFileURL isServer (withDirectives ds w))))
     = body (node (snd (Src.Program pathToFileURL isServer w)))
   /\ file (snd (Src.Program pathToFileURL isServer (withDirectives ds w)))
      = file (snd (Src.Program pathToFileURL isServer w))
   /\ debugLog (snd (Src.Program pathToFileURL isServer (withDirectives ds w)))
      = debugLog (snd (Src.Program pathToFileURL isServer w)))
  /\ (body (node (snd (Build.Program pathToFileURL (withDirectives ds w))))
        = body (node (snd (Build.Program pathToFileURL w)))
      /\ file (snd (Build.Program pathToFileURL (withDirectives ds w)))
         = file (snd (Build.Program pathToFileURL w))
      /\ debugLog (snd (Build.Program pathToFileURL (withDirectives ds w)))
         = debugLog (snd (Build.Program pathToFileURL w))).
Proof.
  intros Hc' Hs'.
  change (isUseClient (withDirectives ds w) = isUseClient w) in Hc'.
  change (isUseServer (withDirectives ds w) = isUseServer w) in Hs'.
  assert (Hf' : hasFilename (withDirectives ds w) = hasFilename w) by reflexivity.
  destruct (isUseClient w) eqn:Hc, (isUseServer w) eqn:Hs, (hasFilename w) eqn:Hf.
  1, 2: rewrite !Src_conflict, !Build_conflict by assumption;
        repeat split; reflexivity.
  2, 4, 6: rewrite !Src_no_filename, !Build_no_filename
             by (try rewrite ?Hc', ?Hs', ?Hc, ?Hs; auto);
           repeat split; reflexivity.
  - rewrite !Build_use_client by assumption. destruct isServer.
    + rewrite !Src_use_client by assumption. repeat split; reflexivity.
    + rewrite !Src_client_build by (try rewrite ?Hc', ?Hs', ?Hc, ?Hs; auto).
      repeat split; reflexivity.
  - rewrite !Build_use_server by assumption. destruct isServer.
    + rewrite !Src_use_server by assumption. repeat split; reflexivity.
    + rewrite !Src_client_build by (try rewrite ?Hc', ?Hs', ?Hc, ?Hs; auto).
      repeat split; reflexivity.
  - rewrite !Src_neither, !Build_neither by assumption.
    repeat split; reflexivity.
Qed.

(** X8.  The order of the directives is irrelevant: a module whose
    directive list is a reordering of another's gets the same statements,
    the same file state and the same log from a run, in both artifacts
    (["use client"] after ["use strict"] counts as much as before it). *)
Theorem directive_order_is_irrelevant
    (pathToFileURL : string -> string) (isServer : bool) (w : World)
    (ds : list Directive) :
  directives (node w) ≡ₚ ds ->
  (body (node (snd (Src.Program pathToFileURL isServer (withDirectives ds w))))
     = body (node (snd (Src.Program pathToFileURL isServer w)))
   /\ file (snd (Src.Program pathToFileURL isServer (withDirectives ds w)))
      = file (snd (Src.Program pathToFileURL isServer w))
   /\ debugLog (snd (Src.Program pathToFileURL isServer (withDirectives ds w)))
      = debugLog (snd (Src.Program pathToFileURL isServer w)))
  /\ (body (node (snd (Build.Program pathToFileURL (withDirectives ds w))))
        = body (node (snd (Build.Program pathToFileURL w)))
      /\ file (snd (Build.Program pathToFileURL (withDirectives ds w)))
         = file (snd (Build.Program pathToFileURL w))
      /\ debugLog (snd (Build.Program pathToFileURL (withDirectives ds w)))
         = debugLog (snd (Build.Program pathToFileURL w))).
Proof.
  intros Hperm. apply run_depends_on_presence.
  - symmetry. apply (hasDirective_Permutation "use client"), Hperm.
  - symmetry. apply (hasDirective_Permutation "use server"), Hperm.
Qed.

Lemma directive_order_is_irrelevant_witness :
  body (node (snd (Src.Program Sample.file_url true
                     (withDirectives [Sample.useClient; Sample.useStrict]
                        Fixture.annotatedModule))))
  = body (node (snd (Src.Program Sample.file_url true Fixture.annotatedModule))).
Proof.
  destruct (directive_order_is_irrelevant Sample.file_url true
              Fixture.annotatedModule [Sample.useClient; Sample.useStrict])
    as ((Hbody & _) & _).
  - apply perm_swap.
  - exact Hbody.
Defined.

(** X9.  Directives other than ["use client"] and ["use server"] play no
    part: with every other directive dropped from the list, a run produces
    the same statements, the same file state and the same log, in both
    artifacts.  (A near miss such as ["use client "] is such another
    directive.) *)
Theorem other_directives_are_ignored
    (pathToFileURL : string -> string) (isServer : bool) (w : World) :
  (body (node (snd (Src.Program pathToFileURL isServer
                      (withDirectives
                         (List.filter isBoundaryDirective (directives (node w))) w))))
     = body (node (snd (Src.Program pathToFileURL isServer w)))
   /\ file (snd (Src.Program pathToFileURL isServer
                   (withDirectives
                      (List.filter isBoundaryDirective (directives (node w))) w)))
      = file (snd (Src.Program pathToFileURL isServer w))
   /\ debugLog (snd (Src.Program pathToFileURL isServer
                       (withDirectives
                          (List.filter isBoundaryDirective (directives (node w))) w)))
      = debugLog (snd (Src.Program pathToFileURL isServer w)))
  /\ (body (node (snd (Build.Program pathToFileURL
                         (withDirectives
                            (List.filter isBoundaryDirective (directives (node w)))
                            w))))
        = body (node (snd (Build.Program pathToFileURL w)))
      /\ file (snd (Build.Program pathToFileURL
                      (withDirectives
                         (List.filter isBoundaryDirective (directives (node w))) w)))
         = file (snd (Build.Program pathToFileURL w))
      /\ debugLog (snd (Build.Program pathToFileURL
                          (withDirectives
                             (List.filter isBoundaryDirective (directives (node w)))
                             w)))
         = debugLog (snd (Build.Program pathToFileURL w))).
Proof.
  apply run_depends_on_presence; apply hasDirective_boundary_filter; auto.
Qed.

(** ** What the wrapper can register *)

Lemma registrationsAt_functions id exported ks :
  Forall (fun call => exists v k,
            call = registerCall v id (VString k) /\ isFunction v = true)
    (flat_map (registrationsAt id exported) ks)
  /\ length (flat_map (registrationsAt id exported) ks) <= length ks.
Proof.
  induction ks as [|k ks [IHf IHl]]; simpl; [split; [constructor | lia]|].
  unfold registrationsAt at 1 3.
  destruct (assoc k (enumerableProps exported)) as [v|]; simpl;
    [destruct (isFunction v) eqn:Hv; simpl|]; split; try lia; try exact IHf.
  constructor; [exists v, k; split; [reflexivity | exact Hv] | exact IHf].
Qed.


(** X11.  The wrapper can be run again: [n] wrappers in a row, which is
    what [n] runs of the visitor leave at the end of a ["use server"]
    module, register the same list [n] times over and still leave
    [module.exports] untouched. *)
Theorem wrappers_in_a_row_register_each_time
    (id : string) (exported : Value) (calls : list HostCall) (n extra : nat) :
  execBlock (execStatement (enoughFuel + extra))
    (replicate n (serverRegistrationStatement id))
    (topLevel (Data exported) calls)
  = Ok (Next,
        topLevel (Data exported)
          (calls ++ concat (replicate n (registrationsOf id exported)))).
Proof.
  revert calls. induction n as [|n IH]; intros calls.
  - simpl. rewrite app_nil_r. reflexivity.
  - cbn [replicate execBlock concat].
    rewrite wrapper_registers. fold (registrationsOf id exported).
    unfold mbind, Result_bind. rewrite IH, app_assoc. reflexivity.
Qed.

(** ** Builds one after the other *)

(** X12.  A server-build run of the source on what a client-build run left
    gives the statements, directives and file state of a server-build run
    alone: the client build has rewritten nothing, and the manifest it
    recorded is written again with the same content. *)
Theorem server_build_after_client_build
    (pathToFileURL : string -> string) (w : World) :
  xorb (isUseClient w) (isUseServer w) = true ->
  hasFilename w = true ->
  fst (Src.Program pathToFileURL true (snd (Src.Program pathToFileURL false w)))
    = Normal tt
  /\ node (snd (Src.Program pathToFileURL true
                  (snd (Src.Program pathToFileURL false w))))
     = node (snd (Src.Program pathToFileURL true w))
  /\ file (snd (Src.Program pathToFileURL true
                  (snd (Src.Program pathToFileURL false w))))
     = file (snd (Src.Program pathToFileURL true w)).
Proof.
  intros Hone Hf.
  destruct (isUseClient w) eqn:Hc, (isUseServer w) eqn:Hs; try discriminate Hone.
  - rewrite Src_client_build by (try rewrite Hc, Hs; auto). cbn [snd].
    rewrite (Src_use_client pathToFileURL w Hc Hs Hf).
    rewrite Src_use_client by assumption.
    unfold withNode, recorded, manifestOf, filePathOf.
    cbn [fst snd node file filename metadata].
    rewrite insert_insert_eq. repeat split.
  - rewrite Src_client_build by (try rewrite Hc, Hs; auto). cbn [snd].
    rewrite (Src_use_server pathToFileURL w Hc Hs Hf).
    rewrite Src_use_server by assumption.
    unfold withNode, recorded, manifestOf, filePathOf.
    cbn [fst snd node file filename metadata].
    rewrite insert_insert_eq. repeat split.
Qed.

Lemma server_build_after_client_build_witness :
  node (snd (Src.Program Sample.file_url true
               (snd (Src.Program Sample.file_url false Sample.clientModule))))
  = node (snd (Src.Program Sample.file_url true Sample.clientModule)).
Proof.
  destruct (server_build_after_client_build Sample.file_url Sample.clientModule
              eq_refl eq_refl) as (_ & Hnode & _).
  exact Hnode.
Defined.

(** ** The collector on exports named by identifiers *)

Lemma traverse_statementOf form :
  traverseStatement (statementOf form) = map Some (exportedNames form).
Proof.
  destruct form as [kind names | fname params | cname | pairs | alias | value
                   | source | callee arguments].
  - apply export_of_identifiers.
  - apply export_of_function. reflexivity.
  - reflexivity.
  - cbn [statementOf exportedNames]. rewrite export_of_specifiers, map_map.
    reflexivity.
  - reflexivity.
  - reflexivity.
  - reflexivity.
  - cbn [statementOf exportedNames traverseStatement traverseExpression].
    rewrite traverse_identifiers. reflexivity.
Qed.



(** ** When the file state is written *)

(** X14.  The manifest and the log line go together, and only for a module
    that will be treated as a boundary: the source writes both exactly when
    one of the two directives is present (not both) and the file has a
    name, whatever the build target; the compiled file writes both exactly
    when ["use client"] is present without ["use server"] and the file has
    a name.  In every other case (conflict, missing file name, no
    directive, and ["use server"] in the compiled file) the file state and
    the log are left as they were. *)
Theorem manifest_and_log_written_together
    (pathToFileURL : string -> string) (isServer : bool) (w : World) :
  (file (snd (Src.Program pathToFileURL isServer w))
     = file (if xorb (isUseClient w) (isUseServer w) && hasFilename w
             then recorded pathToFileURL w else w)
   /\ debugLog (snd (Src.Program pathToFileURL isServer w))
      = debugLog (if xorb (isUseClient w) (isUseServer w) && hasFilename w
                  then recorded pathToFileURL w else w))
  /\ (file (snd (Build.Program pathToFileURL w))
        = file (if isUseClient w && negb (isUseServer w) && hasFilename w
                then recorded pathToFileURL w else w)
      /\ debugLog (snd (Build.Program pathToFileURL w))
         = debugLog (if isUseClient w && negb (isUseServer w) && hasFilename w
                     then recorded pathToFileURL w else w)).
Proof.
  destruct (isUseClient w) eqn:Hc, (isUseServer w) eqn:Hs, (hasFilename w) eqn:Hf;
    cbn [xorb andb negb];
    try (rewrite Src_conflict, Build_conflict by assumption;
         repeat split; reflexivity);
    try (rewrite Src_no_filename, Build_no_filename by (try rewrite Hc, Hs; auto);
         repeat split; reflexivity);
    try (rewrite Src_neither, Build_neither by assumption;
         repeat split; reflexivity).
  - rewrite Build_use_client by assumption. destruct isServer.
    + rewrite Src_use_client by assumption. repeat split; reflexivity.
    + rewrite Src_client_build by (try rewrite Hc, Hs; auto).
      repeat split; reflexivity.
  - rewrite Build_use_server by assumption. destruct isServer.
    + rewrite Src_use_server by assumption. repeat split; reflexivity.
    + rewrite Src_client_build by (try rewrite Hc, Hs; auto).
      repeat split; reflexivity.
Qed.
